(** * Smart lamp controller: the timer / relay state machine

    A shallow embedding of the two firmware sketches of the smart lamp
    (the recommended sketch [mcu_smartlmp.ino] and the optimized sketch
    that drives the GPIO registers directly), and the properties of the
    timer, the relay and the control loop that its design document states.

    Target hardware is the ESP8266: [unsigned long] and [long] are 32 bits
    wide, [millis()] is an [unsigned long] that wraps at [2^32]. *)

From Stdlib Require Import ZArith Lia Bool String Ascii List.
Import ListNotations.
Local Open Scope Z_scope.

(** ** 32-bit machine arithmetic *)

Module Machine.

Definition ULONG_MOD : Z := 2 ^ 32.
Definition LONG_MAX : Z := 2 ^ 31 - 1.
Definition LONG_MIN : Z := - 2 ^ 31.

(** Conversion to [unsigned long]: reduction modulo [2^32]. *)
Definition to_ulong (z : Z) : Z := z mod ULONG_MOD.

(** Conversion to [long]: the two's-complement reading of the low 32 bits
    (what gcc does for the cast [(long)u]). *)
Definition to_long (z : Z) : Z := (z + 2 ^ 31) mod ULONG_MOD - 2 ^ 31.

(** [a - b] and [a * b] on [unsigned long]. *)
Definition usub (a b : Z) : Z := to_ulong (a - b).
Definition umul (a b : Z) : Z := to_ulong (a * b).

(** [a - b] on [long]; an overflowing result is read back in two's
    complement. *)
Definition lsub (a b : Z) : Z := to_long (a - b).

End Machine.
Import Machine.

(** ** The GPIO block

    One register holds the level of every pin (bit [n] set = pin [n] HIGH).
    Writing a mask to [GPOS] drives the masked pins HIGH, writing it to
    [GPOC] drives them LOW; [GPI] reads the levels back.  The Arduino calls
    [digitalWrite] and [digitalRead] are these register accesses for one
    pin. *)

Inductive Level : Type := LOW | HIGH.

Definition Level_eqb (a b : Level) : bool :=
  match a, b with
  | LOW, LOW | HIGH, HIGH => true
  | _, _ => false
  end.

Module GPIO.

Definition write_GPOS (mask pins : Z) : Z := Z.lor pins mask.
Definition write_GPOC (mask pins : Z) : Z := Z.land pins (Z.lnot mask).

(** [#define GPIO_READ(pin) ((GPI >> pin) & 1)] *)
Definition GPIO_READ (pin pins : Z) : Z := Z.land (Z.shiftr pins pin) 1.

Definition digitalRead (pin pins : Z) : Level :=
  if Z.testbit pins pin then HIGH else LOW.

Definition digitalWrite (pin : Z) (val : Level) (pins : Z) : Z :=
  match val with
  | HIGH => write_GPOS (Z.shiftl 1 pin) pins
  | LOW => write_GPOC (Z.shiftl 1 pin) pins
  end.

End GPIO.

(** ** The Arduino [String] helpers the sketches call *)

Module Arduino.

Definition isspace (c : ascii) : bool :=
  let n := Z.of_nat (nat_of_ascii c) in
  (n =? 32) || ((9 <=? n) && (n <=? 13)).

Definition digit_value (c : ascii) : option Z :=
  let n := Z.of_nat (nat_of_ascii c) in
  if (48 <=? n) && (n <=? 57) then Some (n - 48) else None.

Fixpoint skip_spaces (s : string) : string :=
  match s with
  | String c r => if isspace c then skip_spaces r else s
  | EmptyString => s
  end.

Fixpoint read_digits (acc : Z) (s : string) : Z :=
  match s with
  | String c r =>
      match digit_value c with
      | Some d => read_digits (10 * acc + d) r
      | None => acc
      end
  | EmptyString => acc
  end.

(** [atol]: leading white space is skipped, an optional sign is read,
    then the longest run of decimal digits; no digits give 0 and a value
    out of the range of [long] saturates (newlib's [strtol]). *)
Definition atol (s : string) : Z :=
  match skip_spaces s with
  | String "-"%char r => Z.max LONG_MIN (- read_digits 0 r)
  | String "+"%char r => Z.min LONG_MAX (read_digits 0 r)
  | r => Z.min LONG_MAX (read_digits 0 r)
  end.

(** [String::toInt()] is [atol] on the character buffer. *)
Definition toInt (s : string) : Z := atol s.

Definition starts_with_digit (s : string) : bool :=
  match s with
  | String c _ => match digit_value c with Some _ => true | None => false end
  | EmptyString => false
  end.

(** A text with no number to read: after the white space and the
    optional sign there is no digit. *)
Definition non_numeric (s : string) : bool :=
  match skip_spaces s with
  | String "-"%char r => negb (starts_with_digit r)
  | String "+"%char r => negb (starts_with_digit r)
  | r => negb (starts_with_digit r)
  end.

(** Decimal digits of a positive value, most significant first; the fuel
    is the length of the digit buffer. *)
Fixpoint push_digits (fuel : nat) (value : Z) (temp : string) : string :=
  match fuel with
  | O => temp
  | S fuel' =>
      if value >? 0
      then push_digits fuel' (value / 10)
             (String (ascii_of_nat (Z.to_nat (48 + value mod 10))) temp)
      else temp
  end.

(** [String(unsigned long)]: the decimal rendering ([ultoa], base 10). *)
Definition String_of_ulong (value : Z) : string :=
  if value =? 0 then "0"%string else push_digits 16 value EmptyString.

(** The conversion [%02lu] of [sprintf]: the decimal text, padded with
    zeros on the left to two characters. *)
Definition sprintf_02lu (value : Z) : string :=
  let s := String_of_ulong value in
  if (String.length s <? 2)%nat then ("0" ++ s)%string else s.

End Arduino.

(** ** Global variables of the sketch and the HTTP surface *)

Record Globals : Type := mkGlobals {
  pins : Z;                 (* levels of the GPIO pins; bit 5 is the relay *)
  relayState : bool;        (* legacy mirror of the commanded state *)
  currentTimeout : Z;       (* timeout duration in minutes *)
  timeoutActive : bool;
  timeoutStart : Z;
  moduleStartTime : Z
}.

Definition set_pins (v : Z) (g : Globals) : Globals :=
  mkGlobals v (relayState g) (currentTimeout g) (timeoutActive g)
            (timeoutStart g) (moduleStartTime g).
Definition set_relayState (v : bool) (g : Globals) : Globals :=
  mkGlobals (pins g) v (currentTimeout g) (timeoutActive g)
            (timeoutStart g) (moduleStartTime g).
Definition set_currentTimeout (v : Z) (g : Globals) : Globals :=
  mkGlobals (pins g) (relayState g) v (timeoutActive g)
            (timeoutStart g) (moduleStartTime g).
Definition set_timeoutActive (v : bool) (g : Globals) : Globals :=
  mkGlobals (pins g) (relayState g) (currentTimeout g) v
            (timeoutStart g) (moduleStartTime g).
Definition set_timeoutStart (v : Z) (g : Globals) : Globals :=
  mkGlobals (pins g) (relayState g) (currentTimeout g) (timeoutActive g)
            v (moduleStartTime g).

(** The routes registered in [setup] that act on the lamp or report it.
    [GetTimeout arg] carries the [minutes] argument when the request has
    one.  (The page handler [handleRoot] only reads the state to render
    HTML and is left out.) *)
Inductive Request : Type :=
| GetOn
| GetOff
| GetTimeout (minutes : option string)
| GetStatus
| GetApiOn
| GetApiOff.

(** What a handler sends: the 302 redirect to the root page, or 200 with
    a JSON body. *)
Inductive Response : Type :=
| Redirect
| Json (body : string).

(** The three values a status report carries. *)
Record Status : Type := mkStatus {
  on : bool;
  timerActive : bool;
  remainingSeconds : Z
}.

Definition dquote : string := String "034"%char EmptyString.

Definition json_bool (b : bool) : string :=
  if b then "true"%string else "false"%string.

(** The JSON object with the fields on, timeoutActive and
    remainingSeconds, in this order; the number comes already rendered. *)
Definition status_json (st : Status) (number : string) : string :=
  ("{" ++ dquote ++ "on" ++ dquote ++ ":" ++ json_bool (on st) ++ ","
   ++ dquote ++ "timeoutActive" ++ dquote ++ ":" ++ json_bool (timerActive st) ++ ","
   ++ dquote ++ "remainingSeconds" ++ dquote ++ ":" ++ number ++ "}")%string.

(** What one pass of [loop] leaves behind: the globals, the response sent
    by [server.handleClient()] if a request was pending, and whether
    [ESP.restart()] was reached. *)
Record LoopResult (S : Type) : Type := mkLoopResult {
  after : S;
  sent : option Response;
  restarted : bool
}.
Arguments mkLoopResult {S} _ _ _.
Arguments after {S} _.
Arguments sent {S} _.
Arguments restarted {S} _.

(** ** The recommended sketch ([mcu_smartlmp.ino])

    Every [millis()] call of the source is a clock reading passed in by
    the caller, one parameter per call site. *)

Module Recommended.

Definition relayPin : Z := 5.

Definition SAFETY_REBOOT_INTERVAL : Z :=
  umul (umul (umul 12 60) 60) 1000.

Definition isLampOn (g : Globals) : bool :=
  Level_eqb (GPIO.digitalRead relayPin (pins g)) LOW.

Definition setLamp (on : bool) (g : Globals) : Globals :=
  set_pins (GPIO.digitalWrite relayPin (if on then LOW else HIGH) (pins g)) g.

(** The locals [on], [timeoutActive], [remainingSeconds] of
    [buildStatusJson] at clock reading [now]. *)
Definition statusFields (now : Z) (g : Globals) : Status :=
  let on := isLampOn g in
  let remainingSeconds :=
    if timeoutActive g && on then
      let elapsed := usub now (timeoutStart g) in
      let remainingMs :=
        lsub (to_long (umul (currentTimeout g) 60000)) (to_long elapsed) in
      let remainingMs := if remainingMs <? 0 then 0 else remainingMs in
      to_ulong (Z.quot remainingMs 1000)
    else 0 in
  mkStatus on (timeoutActive g) remainingSeconds.

Definition buildStatusJson (now : Z) (g : Globals) : string :=
  let st := statusFields now g in
  status_json st (Arduino.String_of_ulong (remainingSeconds st)).

(** The part of [setup] that touches the globals; [now] is the
    [millis()] reading, [pins0] the pin levels found at power-up. *)
Definition setup (now : Z) (pins0 : Z) : Globals :=
  mkGlobals (GPIO.digitalWrite relayPin HIGH pins0) false 0 false 0 now.

Definition handleOn (g : Globals) : Globals * Response :=
  let g := setLamp true g in
  let g := set_relayState true g in
  (g, Redirect).

Definition handleOff (g : Globals) : Globals * Response :=
  let g := setLamp false g in
  let g := set_relayState false g in
  let g := set_timeoutActive false g in
  let g := set_currentTimeout 0 g in
  (g, Redirect).

Definition handleTimeout (arg : option string) (now : Z) (g : Globals)
  : Globals * Response :=
  let g :=
    match arg with
    | Some a =>
        let minutes := Arduino.toInt a in
        let minutes := if minutes <? 0 then 0 else minutes in
        let minutes := if minutes >? 720 then 720 else minutes in
        if (minutes >? 0) && (minutes <=? 720) then
          let g :=
            if negb (isLampOn g)
            then set_relayState true (setLamp true g)
            else g in
          let g := set_currentTimeout (to_ulong minutes) g in
          let g := set_timeoutActive true g in
          set_timeoutStart now g
        else
          let g := set_timeoutActive false g in
          set_currentTimeout 0 g
    | None => g
    end in
  (g, Redirect).

Definition handleStatus (now : Z) (g : Globals) : Globals * Response :=
  (g, Json (buildStatusJson now g)).

Definition handleOnApi (now : Z) (g : Globals) : Globals * Response :=
  let g := setLamp true g in
  let g := set_relayState true g in
  (g, Json (buildStatusJson now g)).

Definition handleOffApi (now : Z) (g : Globals) : Globals * Response :=
  let g := setLamp false g in
  let g := set_relayState false g in
  let g := set_timeoutActive false g in
  let g := set_currentTimeout 0 g in
  (g, Json (buildStatusJson now g)).

(** The routing table installed by [setup]. *)
Definition dispatch (r : Request) (now : Z) (g : Globals)
  : Globals * Response :=
  match r with
  | GetOn => handleOn g
  | GetOff => handleOff g
  | GetTimeout arg => handleTimeout arg now g
  | GetStatus => handleStatus now g
  | GetApiOn => handleOnApi now g
  | GetApiOff => handleOffApi now g
  end.

(** [server.handleClient()]: runs the handler of the pending request, if
    there is one, to completion. *)
Definition handleClient (req : option Request) (now : Z) (g : Globals)
  : Globals * option Response :=
  match req with
  | Some r => let (g', resp) := dispatch r now g in (g', Some resp)
  | None => (g, None)
  end.

(** The three checks of [loop] that follow [server.handleClient()]. *)
Definition checks (tExpiry tSafety : Z) (g : Globals) : Globals * bool :=
  let lampOn := isLampOn g in
  let g :=
    if timeoutActive g && lampOn
       && (umul (currentTimeout g) 60000 <=? usub tExpiry (timeoutStart g))
    then
      let g := setLamp false g in
      let g := set_relayState false g in
      set_timeoutActive false g
    else g in
  let g :=
    if timeoutActive g && negb (isLampOn g)
    then set_timeoutActive false g
    else g in
  let restart :=
    negb (isLampOn g)
    && (SAFETY_REBOOT_INTERVAL <=? usub tSafety (moduleStartTime g)) in
  (g, restart).

Definition loop (req : option Request) (tClient tExpiry tSafety : Z)
           (g : Globals) : LoopResult Globals :=
  let (g, resp) := handleClient req tClient g in
  let (g, restart) := checks tExpiry tSafety g in
  mkLoopResult g resp restart.

(** The locals [totalSec] and [timeDisplayInit] of [handleRoot]: the
    countdown the page starts from, in seconds and as text. *)
Definition countdown (now : Z) (g : Globals) : Z * string :=
  if timeoutActive g then
    let elapsed := usub now (timeoutStart g) in
    let remainingMs := usub (umul (currentTimeout g) 60000) elapsed in
    let remainingMs := if to_long remainingMs <? 0 then 0 else remainingMs in
    let totalSec := remainingMs / 1000 in
    let hours := totalSec / 3600 in
    let minutes := (totalSec mod 3600) / 60 in
    let seconds := totalSec mod 60 in
    let timeDisplayInit := EmptyString in
    let timeDisplayInit :=
      if hours <? 10 then (timeDisplayInit ++ "0")%string
      else timeDisplayInit in
    let timeDisplayInit :=
      (timeDisplayInit ++ (Arduino.String_of_ulong hours ++ ":"))%string in
    let timeDisplayInit :=
      if minutes <? 10 then (timeDisplayInit ++ "0")%string
      else timeDisplayInit in
    let timeDisplayInit :=
      (timeDisplayInit ++ (Arduino.String_of_ulong minutes ++ ":"))%string in
    let timeDisplayInit :=
      if seconds <? 10 then (timeDisplayInit ++ "0")%string
      else timeDisplayInit in
    let timeDisplayInit :=
      (timeDisplayInit ++ Arduino.String_of_ulong seconds)%string in
    (totalSec, timeDisplayInit)
  else (0, "00:00:00"%string).

(** [handleRoot]: the control page, sent with status 200 as text/html;
    the list holds, in order, every piece the source appends to [html].
    The route reads the state and changes none of it, so it stands beside
    [dispatch] rather than in it. *)
Definition handleRoot (now : Z) (g : Globals) : Globals * string :=
  let lampOn := isLampOn g in
  let totalSec := fst (countdown now g) in
  let timeDisplayInit := snd (countdown now g) in
  let html := String.concat EmptyString [
    "<!DOCTYPE html><html><head><meta name='viewport' content='width=device-width,initial-scale=1,user-scalable=no'>"%string;
    "<meta charset='UTF-8'><title>Smart Lamp Controller</title>"%string;
    "<link rel='icon' href='data:image/svg+xml,%3Csvg xmlns=%22http://www.w3.org/2000/svg%22 viewBox=%220 0 24 24%22%3E%3Ccircle cx=%2212%22 cy=%2210%22 r=%226%22 fill=%22%23FFD700%22 stroke=%22%23FFA500%22 stroke-width=%221%22/%3E%3Crect x=%2210%22 y=%2216%22 width=%224%22 height=%224%22 fill=%22%23888%22 rx=%221%22/%3E%3C/svg%3E'>"%string;
    "<meta name='theme-color' content='#4CAF50'>"%string;
    "<style>"%string;
    "*{margin:0;padding:0;box-sizing:border-box;}"%string;
    "body{font-family:'Segoe UI',sans-serif;background:#fff;min-height:100vh;display:flex;align-items:center;justify-content:center;padding:20px;}"%string;
    ".app{width:100%;max-width:350px;background:#fff;border-radius:30px;padding:40px 30px;box-shadow:0 20px 60px rgba(0,0,0,0.1);text-align:center;border:1px solid #f0f0f0;position:relative;}"%string;
    ".title{font-size:24px;font-weight:400;color:#333;margin-bottom:40px;letter-spacing:1px;}"%string;
    ".power-section{margin-bottom:40px;}"%string;
    ".power-btn{width:140px;height:140px;border-radius:50%;border:none;background:linear-gradient(135deg,#4CAF50,#45a049);color:#fff;font-size:18px;font-weight:600;cursor:pointer;transition:all 0.3s cubic-bezier(0.4,0,0.2,1);box-shadow:0 10px 30px rgba(76,175,80,0.4);margin:0 auto;display:flex;align-items:center;justify-content:center;}"%string;
    ".power-btn.off{background:linear-gradient(135deg,#e0e0e0,#bdbdbd);color:#757575;box-shadow:0 10px 30px rgba(0,0,0,0.1);}"%string;
    ".power-btn:hover{transform:translateY(-2px);box-shadow:0 15px 40px rgba(76,175,80,0.5);}"%string;
    ".power-btn.off:hover{box-shadow:0 15px 40px rgba(0,0,0,0.15);}"%string;
    ".power-btn:active{transform:scale(0.95);}"%string;
    ".status{margin-top:20px;font-size:16px;color:#666;}"%string;
    ".status-sub{margin-top:8px;font-size:14px;color:#999;}"%string;
    ".timer-section{background:#f8f9fa;border-radius:20px;padding:25px;border:1px solid #e9ecef;}"%string;
    ".section-title{font-size:18px;font-weight:400;color:#333;margin-bottom:20px;}"%string;
    ".timer-input{width:100%;padding:15px 20px;border:2px solid #e9ecef;border-radius:15px;background:#fff;font-size:16px;text-align:center;margin-bottom:20px;}"%string;
    ".timer-input:focus{outline:none;border-color:#2196F3;box-shadow:0 0 0 3px rgba(33,150,243,0.2);}"%string;
    ".btn{padding:12px 25px;border:none;border-radius:15px;background:linear-gradient(135deg,#2196F3,#1976D2);color:#fff;font-size:14px;font-weight:500;cursor:pointer;transition:all 0.3s ease;margin:5px;}"%string;
    ".btn:hover{transform:translateY(-1px);box-shadow:0 5px 15px rgba(33,150,243,0.4);}"%string;
    ".btn-cancel{background:linear-gradient(135deg,#f44336,#d32f2f);}"%string;
    ".btn-cancel:hover{box-shadow:0 5px 15px rgba(244,67,54,0.35);}"%string;
    ".btn:active{transform:scale(0.98);}"%string;
    ".quick-btns{display:flex;gap:10px;margin-top:15px;}"%string;
    ".quick-btn{flex:1;padding:10px;background:#fff;border:1px solid #e9ecef;border-radius:12px;color:#666;font-size:12px;cursor:pointer;transition:all 0.3s ease;}"%string;
    ".quick-btn:hover{background:#f8f9fa;transform:translateY(-1px);border-color:#2196F3;}"%string;
    ".btn:disabled,.quick-btn:disabled{opacity:0.6;cursor:not-allowed;box-shadow:none;transform:none;}"%string;
    ".timer-input:disabled{background:#f5f5f5;color:#aaa;}"%string;
    "@media(max-width:400px){body{padding:10px;}.app{margin:0;padding:30px 25px;}.power-btn{width:120px;height:120px;font-size:16px;}}"%string;
    "@media(max-height:600px){body{align-items:flex-start;padding-top:20px;}}"%string;
    "</style></head><body>"%string;
    "<div class='app'>"%string;
    "<h1 class='title'>Smart Lamp</h1>"%string;
    "<div class='power-section'>"%string;
    "<form id='powerForm' action='"%string;
    (if lampOn then "/off" else "/on")%string;
    "'>"%string;
    "<button id='powerBtn' type='button' onclick='togglePower()' class='power-btn "%string;
    (if lampOn then EmptyString else "off")%string;
    "'>"%string;
    (if lampOn then "ON" else "OFF")%string;
    "</button></form>"%string;
    "<div id='lampStatus' class='status'>"%string;
    (if lampOn then "Lamp is ON" else "Lamp is OFF")%string;
    "</div>"%string;
    "<div class='status-sub' id='cdWrap' data-remaining='"%string;
    Arduino.String_of_ulong totalSec;
    "' style='display:"%string;
    (if timeoutActive g then "block" else "none")%string;
    ";'>"%string;
    "Auto off in <span id='cdText'>"%string;
    timeDisplayInit;
    "</span></div>"%string;
    "</div>"%string;
    "<div class='timer-section'>"%string;
    "<div class='section-title'>Timer</div>"%string;
    "<form id='timeoutForm' action='/timeout'>"%string;
    "<input id='minutesInput' type='number' name='minutes' class='timer-input' value='0' min='0' max='720' placeholder='Minutes (0 to disable)'>"%string;
    "<button id='cancelBtn' type='button' class='btn btn-cancel' style='display:"%string;
    (if timeoutActive g then "inline-block" else "none")%string;
    "' onclick='cancelTimer()'>Cancel Timer</button>"%string;
    "<button id='setBtn' class='btn' style='display:"%string;
    (if timeoutActive g then "none" else "inline-block")%string;
    "'>Set Timer</button>"%string;
    "</form>"%string;
    "<div class='quick-btns'>"%string;
    "<button id='q1' type='button' class='quick-btn' onclick='setQuick(1)'>1m</button>"%string;
    "<button id='q5' type='button' class='quick-btn' onclick='setQuick(5)'>5m</button>"%string;
    "<button id='q30' type='button' class='quick-btn' onclick='setQuick(30)'>30m</button>"%string;
    "<button id='q60' type='button' class='quick-btn' onclick='setQuick(60)'>1hr</button>"%string;
    "</div>"%string;
    "</div>"%string;
    "</div>"%string;
    "<script>"%string;
    "function setQuick(m){var inp=document.getElementById('minutesInput'); if(inp) inp.value=m; fetch('/timeout?minutes='+encodeURIComponent(m),{cache:'no-store'}).then(function(){return getStatus();}).catch(function(){});}"%string;
    "function cancelTimer(){fetch('/timeout?minutes=0',{cache:'no-store'}).then(function(){return getStatus();}).catch(function(){});}"%string;
    "(function(){var inp=document.getElementById('minutesInput');var btn=document.getElementById('setBtn'); var form=document.getElementById('timeoutForm'); if(!inp||!btn||!form) return; inp.addEventListener('input', function(){}); form.addEventListener('submit', function(e){ e.preventDefault(); if(inp.disabled) return; if(!inp.checkValidity()){ inp.reportValidity(); return;} var v=parseInt(inp.value)||0; fetch('/timeout?minutes='+encodeURIComponent(v),{cache:'no-store'}).then(function(){return getStatus();}).catch(function(){}); }); })();"%string;
    "function pad(n){return n<10?'0'+n:n;}"%string;
    "var wrap=document.getElementById('cdWrap');"%string;
    "var remainingSeconds=wrap?parseInt(wrap.getAttribute('data-remaining')):0;"%string;
    "function renderCountdown(){if(!wrap)return; if(remainingSeconds>0){var h=Math.floor(remainingSeconds/3600),m=Math.floor((remainingSeconds%3600)/60),s=remainingSeconds%60; var txt=document.getElementById('cdText'); if(txt){txt.textContent=pad(h)+':'+pad(m)+':'+pad(s);} wrap.style.display='block';}else{wrap.style.display='none';}}"%string;
    "function applyStatus(s){try{window.__lastStatus=s; var on=!!s.on; var pf=document.getElementById('powerForm'); var pb=document.getElementById('powerBtn'); var st=document.getElementById('lampStatus'); var inp=document.getElementById('minutesInput'); var setBtn=document.getElementById('setBtn'); var cancelBtn=document.getElementById('cancelBtn'); var q1=document.getElementById('q1'), q5=document.getElementById('q5'), q30=document.getElementById('q30'), q60=document.getElementById('q60'); if(pf) pf.action = on?'/off':'/on'; if(pb){pb.className = 'power-btn ' + (on?'':'off'); pb.textContent = on?'ON':'OFF';} if(st) st.textContent = on?'Lamp is ON':'Lamp is OFF'; var tActive = !!s.timeoutActive && (s.remainingSeconds||0) > 0 && on; if(cancelBtn) cancelBtn.style.display = tActive ? 'inline-block' : 'none'; if(setBtn) setBtn.style.display = tActive ? 'none' : 'inline-block'; remainingSeconds = s.remainingSeconds||0; renderCountdown(); }catch(e){}}"%string;
    "function togglePower(){var pb=document.getElementById('powerBtn'); if(!pb) return; pb.disabled=true; var on=(window.__lastStatus && window.__lastStatus.on) || !pb.className.includes('off'); var next= on?'/api/off':'/api/on'; fetch(next,{cache:'no-store'}).then(function(){return getStatus();}).catch(function(){}).finally(function(){pb.disabled=false;}); }"%string;
    "function getStatus(){return fetch('/status',{cache:'no-store'}).then(function(r){return r.json()}).then(function(s){applyStatus(s); return s;});}"%string;
    "renderCountdown();"%string;
    "setInterval(function(){getStatus().catch(function(){})}, 1000);"%string;
    "</script></body></html>"%string
  ] in
  (g, html).

End Recommended.

(** ** The optimized sketch

    Same routes and globals; the relay is driven through the GPIO
    registers, the status text is assembled in fixed buffers, and the
    safety check runs on a 30-minute cadence kept in [lastSafetyCheck]. *)

Module Optimized.

Record State : Type := mkState {
  globals : Globals;
  lastSafetyCheck : Z
}.

Definition SAFETY_REBOOT_INTERVAL : Z :=
  umul (umul (umul 12 60) 60) 1000.

Definition SAFETY_CHECK_INTERVAL : Z :=
  umul (umul 30 60) 1000.

Definition isLampOn (g : Globals) : bool :=
  GPIO.GPIO_READ 5 (pins g) =? 0.

Definition setLamp (on : bool) (g : Globals) : Globals :=
  if on
  then set_pins (GPIO.write_GPOC (Z.shiftl 1 5) (pins g)) g
  else set_pins (GPIO.write_GPOS (Z.shiftl 1 5) (pins g)) g.

(** The digit loop of [fastItoa]: [temp] is the digit stack, last digit
    pushed first, so reading it from the top is the reversing copy. *)
Fixpoint fastItoa_digits (fuel : nat) (value : Z) (temp : string) : string :=
  match fuel with
  | O => temp
  | S fuel' =>
      if value >? 0
      then fastItoa_digits fuel' (value / 10)
             (String (ascii_of_nat (Z.to_nat (48 + value mod 10))) temp)
      else temp
  end.

Definition fastItoa (value : Z) : string :=
  if value =? 0 then "0"%string
  else fastItoa_digits 16 value EmptyString.

Definition calculateRemainingSeconds (now : Z) (g : Globals) : Z :=
  if negb (timeoutActive g) then 0
  else
    let elapsed := usub now (timeoutStart g) in
    let remainingMs :=
      lsub (to_long (umul (currentTimeout g) 60000)) (to_long elapsed) in
    let remainingMs := if remainingMs <? 0 then 0 else remainingMs in
    to_ulong (Z.quot remainingMs 1000).

(** The locals [on] and [remainingSeconds] of [buildStatusJson], with the
    [timeoutActive] flag it prints. *)
Definition statusFields (now : Z) (g : Globals) : Status :=
  let on := isLampOn g in
  let remainingSeconds :=
    if timeoutActive g && on then calculateRemainingSeconds now g else 0 in
  mkStatus on (timeoutActive g) remainingSeconds.

Definition buildStatusJson (now : Z) (g : Globals) : string :=
  let st := statusFields now g in
  status_json st (fastItoa (remainingSeconds st)).

Definition setup (now : Z) (pins0 : Z) : State :=
  mkState
    (mkGlobals (GPIO.write_GPOS (Z.shiftl 1 5) pins0) false 0 false 0 now)
    0.

Definition setLampWithState (state : bool) (g : Globals) : Globals :=
  let g := setLamp state g in
  let g := set_relayState state g in
  if negb state then
    let g := set_timeoutActive false g in
    set_currentTimeout 0 g
  else g.

Definition sendRedirect : Response := Redirect.

Definition sendJsonResponse (now : Z) (g : Globals) : Response :=
  Json (buildStatusJson now g).

Definition handleOn (g : Globals) : Globals * Response :=
  let g := setLampWithState true g in
  (g, sendRedirect).

Definition handleOff (g : Globals) : Globals * Response :=
  let g := setLampWithState false g in
  (g, sendRedirect).

Definition handleTimeout (arg : option string) (now : Z) (g : Globals)
  : Globals * Response :=
  let g :=
    match arg with
    | Some a =>
        let minutes := Arduino.toInt a in
        let minutes := if minutes <? 0 then 0 else minutes in
        let minutes := if minutes >? 720 then 720 else minutes in
        if (minutes >? 0) && (minutes <=? 720) then
          let g :=
            if negb (isLampOn g)
            then set_relayState true (setLamp true g)
            else g in
          let g := set_currentTimeout (to_ulong minutes) g in
          let g := set_timeoutActive true g in
          set_timeoutStart now g
        else
          let g := set_timeoutActive false g in
          set_currentTimeout 0 g
    | None => g
    end in
  (g, Redirect).

Definition handleStatus (now : Z) (g : Globals) : Globals * Response :=
  (g, Json (buildStatusJson now g)).

Definition handleOnApi (now : Z) (g : Globals) : Globals * Response :=
  let g := setLampWithState true g in
  (g, sendJsonResponse now g).

Definition handleOffApi (now : Z) (g : Globals) : Globals * Response :=
  let g := setLampWithState false g in
  (g, sendJsonResponse now g).

Definition dispatch (r : Request) (now : Z) (g : Globals)
  : Globals * Response :=
  match r with
  | GetOn => handleOn g
  | GetOff => handleOff g
  | GetTimeout arg => handleTimeout arg now g
  | GetStatus => handleStatus now g
  | GetApiOn => handleOnApi now g
  | GetApiOff => handleOffApi now g
  end.

Definition handleClient (req : option Request) (now : Z) (g : Globals)
  : Globals * option Response :=
  match req with
  | Some r => let (g', resp) := dispatch r now g in (g', Some resp)
  | None => (g, None)
  end.

(** The checks of [loop] that follow [server.handleClient()];
    [currentMillis] is the single clock reading they share. *)
Definition checks (currentMillis : Z) (s : State) : State * bool :=
  let g := globals s in
  let lampOn := isLampOn g in
  let g :=
    if timeoutActive g && lampOn
       && (umul (currentTimeout g) 60000
           <=? usub currentMillis (timeoutStart g))
    then
      let g := setLamp false g in
      let g := set_relayState false g in
      set_timeoutActive false g
    else g in
  let g :=
    if timeoutActive g && negb (isLampOn g)
    then set_timeoutActive false g
    else g in
  if SAFETY_CHECK_INTERVAL <=? usub currentMillis (lastSafetyCheck s) then
    let restart :=
      negb (isLampOn g)
      && (SAFETY_REBOOT_INTERVAL <=? usub currentMillis (moduleStartTime g)) in
    (mkState g currentMillis, restart)
  else
    (mkState g (lastSafetyCheck s), false).

Definition loop (req : option Request) (tClient currentMillis : Z)
           (s : State) : LoopResult State :=
  let (g, resp) := handleClient req tClient (globals s) in
  let (s', restart) := checks currentMillis (mkState g (lastSafetyCheck s)) in
  mkLoopResult s' resp restart.

(** [buildHtmlResponse]: the page text written to [htmlBuffer]; the
    list holds, in order, every text copied to the write pointer. *)
Definition buildHtmlResponse (lampOn timeoutActive : bool) (totalSec : Z)
           (timeDisplayInit : string) : string :=
  String.concat EmptyString [
    "<!DOCTYPE html><html><head><meta name='viewport' content='width=device-width,initial-scale=1,user-scalable=no'>"%string;
    "<meta charset='UTF-8'><title>Smart Lamp Controller</title>"%string;
    "<link rel='icon' href='data:image/svg+xml,%3Csvg xmlns=%22http://www.w3.org/2000/svg%22 viewBox=%220 0 24 24%22%3E%3Ccircle cx=%2212%22 cy=%2210%22 r=%226%22 fill=%22%23FFD700%22 stroke=%22%23FFA500%22 stroke-width=%221%22/%3E%3Crect x=%2210%22 y=%2216%22 width=%224%22 height=%224%22 fill=%22%23888%22 rx=%221%22/%3E%3C/svg%3E'>"%string;
    "<meta name='theme-color' content='#4CAF50'><style>"%string;
    "*{margin:0;padding:0;box-sizing:border-box;}"%string;
    "body{font-family:'Segoe UI',sans-serif;background:#fff;min-height:100vh;display:flex;align-items:center;justify-content:center;padding:20px;}"%string;
    ".app{width:100%;max-width:350px;background:#fff;border-radius:30px;padding:40px 30px;box-shadow:0 20px 60px rgba(0,0,0,0.1);text-align:center;border:1px solid #f0f0f0;position:relative;}"%string;
    ".title{font-size:24px;font-weight:400;color:#333;margin-bottom:40px;letter-spacing:1px;}"%string;
    ".power-section{margin-bottom:40px;}"%string;
    ".power-btn{width:140px;height:140px;border-radius:50%;border:none;background:linear-gradient(135deg,#4CAF50,#45a049);color:#fff;font-size:18px;font-weight:600;cursor:pointer;transition:all 0.3s cubic-bezier(0.4,0,0.2,1);box-shadow:0 10px 30px rgba(76,175,80,0.4);margin:0 auto;display:flex;align-items:center;justify-content:center;}"%string;
    ".power-btn.off{background:linear-gradient(135deg,#e0e0e0,#bdbdbd);color:#757575;box-shadow:0 10px 30px rgba(0,0,0,0.1);}"%string;
    ".power-btn:hover{transform:translateY(-2px);box-shadow:0 15px 40px rgba(76,175,80,0.5);}"%string;
    ".power-btn.off:hover{box-shadow:0 15px 40px rgba(0,0,0,0.15);}"%string;
    ".power-btn:active{transform:scale(0.95);}"%string;
    ".status{margin-top:20px;font-size:16px;color:#666;}"%string;
    ".status-sub{margin-top:8px;font-size:14px;color:#999;}"%string;
    ".timer-section{background:#f8f9fa;border-radius:20px;padding:25px;border:1px solid #e9ecef;}"%string;
    ".section-title{font-size:18px;font-weight:400;color:#333;margin-bottom:20px;}"%string;
    ".timer-input{width:100%;padding:15px 20px;border:2px solid #e9ecef;border-radius:15px;background:#fff;font-size:16px;text-align:center;margin-bottom:20px;}"%string;
    ".timer-input:focus{outline:none;border-color:#2196F3;box-shadow:0 0 0 3px rgba(33,150,243,0.2);}"%string;
    ".btn{padding:12px 25px;border:none;border-radius:15px;background:linear-gradient(135deg,#2196F3,#1976D2);color:#fff;font-size:14px;font-weight:500;cursor:pointer;transition:all 0.3s ease;margin:5px;}"%string;
    ".btn:hover{transform:translateY(-1px);box-shadow:0 5px 15px rgba(33,150,243,0.4);}"%string;
    ".btn-cancel{background:linear-gradient(135deg,#f44336,#d32f2f);}"%string;
    ".btn-cancel:hover{box-shadow:0 5px 15px rgba(244,67,54,0.35);}"%string;
    ".btn:active{transform:scale(0.98);}"%string;
    ".quick-btns{display:flex;gap:10px;margin-top:15px;}"%string;
    ".quick-btn{flex:1;padding:10px;background:#fff;border:1px solid #e9ecef;border-radius:12px;color:#666;font-size:12px;cursor:pointer;transition:all 0.3s ease;}"%string;
    ".quick-btn:hover{background:#f8f9fa;transform:translateY(-1px);border-color:#2196F3;}"%string;
    ".btn:disabled,.quick-btn:disabled{opacity:0.6;cursor:not-allowed;box-shadow:none;transform:none;}"%string;
    ".timer-input:disabled{background:#f5f5f5;color:#aaa;}"%string;
    "@media(max-width:400px){body{padding:10px;}.app{margin:0;padding:30px 25px;}.power-btn{width:120px;height:120px;font-size:16px;}}"%string;
    "@media(max-height:600px){body{align-items:flex-start;padding-top:20px;}}"%string;
    "</style></head><body><div class='app'><h1 class='title'>Smart Lamp</h1>"%string;
    "<div class='power-section'><form id='powerForm' action='"%string;
    (if lampOn then "/off" else "/on")%string;
    "'><button id='powerBtn' type='button' onclick='togglePower()' class='power-btn "%string;
    (if negb lampOn then "off" else EmptyString)%string;
    "'>"%string;
    (if lampOn then "ON" else "OFF")%string;
    "</button></form><div id='lampStatus' class='status'>"%string;
    (if lampOn then "Lamp is ON" else "Lamp is OFF")%string;
    "</div>"%string;
    "<div class='status-sub' id='cdWrap' data-remaining='"%string;
    fastItoa totalSec;
    "' style='display:"%string;
    (if timeoutActive then "block" else "none")%string;
    ";'>Auto off in <span id='cdText'>"%string;
    timeDisplayInit;
    "</span></div></div>"%string;
    "<div class='timer-section'><div class='section-title'>Timer</div>"%string;
    "<form id='timeoutForm' action='/timeout'>"%string;
    "<input id='minutesInput' type='number' name='minutes' class='timer-input' value='0' min='0' max='720' placeholder='Minutes (0 to disable)'>"%string;
    "<button id='cancelBtn' type='button' class='btn btn-cancel' style='display:"%string;
    (if timeoutActive then "inline-block" else "none")%string;
    "' onclick='cancelTimer()'>Cancel Timer</button>"%string;
    "<button id='setBtn' class='btn' style='display:"%string;
    (if timeoutActive then "none" else "inline-block")%string;
    "'>Set Timer</button></form>"%string;
    "<div class='quick-btns'>"%string;
    "<button id='q1' type='button' class='quick-btn' onclick='setQuick(1)'>1m</button>"%string;
    "<button id='q5' type='button' class='quick-btn' onclick='setQuick(5)'>5m</button>"%string;
    "<button id='q30' type='button' class='quick-btn' onclick='setQuick(30)'>30m</button>"%string;
    "<button id='q60' type='button' class='quick-btn' onclick='setQuick(60)'>1hr</button>"%string;
    "</div></div></div>"%string;
    "<script>"%string;
    "function setQuick(m){var inp=document.getElementById('minutesInput'); if(inp) inp.value=m; fetch('/timeout?minutes='+encodeURIComponent(m),{cache:'no-store'}).then(function(){return getStatus();}).catch(function(){});}"%string;
    "function cancelTimer(){fetch('/timeout?minutes=0',{cache:'no-store'}).then(function(){return getStatus();}).catch(function(){});}"%string;
    "(function(){var inp=document.getElementById('minutesInput');var btn=document.getElementById('setBtn'); var form=document.getElementById('timeoutForm'); if(!inp||!btn||!form) return; inp.addEventListener('input', function(){}); form.addEventListener('submit', function(e){ e.preventDefault(); if(inp.disabled) return; if(!inp.checkValidity()){ inp.reportValidity(); return;} var v=parseInt(inp.value)||0; fetch('/timeout?minutes='+encodeURIComponent(v),{cache:'no-store'}).then(function(){return getStatus();}).catch(function(){}); }); })();"%string;
    "function pad(n){return n<10?'0'+n:n;}"%string;
    "var wrap=document.getElementById('cdWrap');"%string;
    "var remainingSeconds=wrap?parseInt(wrap.getAttribute('data-remaining')):0;"%string;
    "function renderCountdown(){if(!wrap)return; if(remainingSeconds>0){var h=Math.floor(remainingSeconds/3600),m=Math.floor((remainingSeconds%3600)/60),s=remainingSeconds%60; var txt=document.getElementById('cdText'); if(txt){txt.textContent=pad(h)+':'+pad(m)+':'+pad(s);} wrap.style.display='block';}else{wrap.style.display='none';}}"%string;
    "function applyStatus(s){try{window.__lastStatus=s; var on=!!s.on; var pf=document.getElementById('powerForm'); var pb=document.getElementById('powerBtn'); var st=document.getElementById('lampStatus'); var inp=document.getElementById('minutesInput'); var setBtn=document.getElementById('setBtn'); var cancelBtn=document.getElementById('cancelBtn'); var q1=document.getElementById('q1'), q5=document.getElementById('q5'), q30=document.getElementById('q30'), q60=document.getElementById('q60'); if(pf) pf.action = on?'/off':'/on'; if(pb){pb.className = 'power-btn ' + (on?'':'off'); pb.textContent = on?'ON':'OFF';} if(st) st.textContent = on?'Lamp is ON':'Lamp is OFF'; var tActive = !!s.timeoutActive && (s.remainingSeconds||0) > 0 && on; if(cancelBtn) cancelBtn.style.display = tActive ? 'inline-block' : 'none'; if(setBtn) setBtn.style.display = tActive ? 'none' : 'inline-block'; remainingSeconds = s.remainingSeconds||0; renderCountdown(); }catch(e){}}"%string;
    "function togglePower(){var pb=document.getElementById('powerBtn'); if(!pb) return; pb.disabled=true; var on=(window.__lastStatus && window.__lastStatus.on) || !pb.className.includes('off'); var next= on?'/api/off':'/api/on'; fetch(next,{cache:'no-store'}).then(function(){return getStatus();}).catch(function(){}).finally(function(){pb.disabled=false;}); }"%string;
    "function getStatus(){return fetch('/status',{cache:'no-store'}).then(function(r){return r.json()}).then(function(s){applyStatus(s); return s;});}"%string;
    "renderCountdown();"%string;
    "setInterval(function(){getStatus().catch(function(){})}, 1000);"%string;
    "</script></body></html>"%string
  ].

(** The locals [totalSec] and [timeDisplayInit] of [handleRoot]. *)
Definition countdown (now : Z) (g : Globals) : Z * string :=
  let totalSec := calculateRemainingSeconds now g in
  let timeDisplayInit :=
    if timeoutActive g && (totalSec >? 0) then
      let hours := totalSec / 3600 in
      let minutes := (totalSec mod 3600) / 60 in
      let seconds := totalSec mod 60 in
      (Arduino.sprintf_02lu hours ++ ":" ++ Arduino.sprintf_02lu minutes
       ++ ":" ++ Arduino.sprintf_02lu seconds)%string
    else "00:00:00"%string in
  (totalSec, timeDisplayInit).

(** [handleRoot]: the control page, sent with status 200 as text/html. *)
Definition handleRoot (now : Z) (g : Globals) : Globals * string :=
  let lampOn := isLampOn g in
  let totalSec := fst (countdown now g) in
  let timeDisplayInit := snd (countdown now g) in
  (g, buildHtmlResponse lampOn (timeoutActive g) totalSec timeDisplayInit).

End Optimized.

(** ** Vocabulary of the design document *)

(** The timer invariant: an active timer has a positive duration. *)
Definition timer_inv (g : Globals) : Prop :=
  timeoutActive g = true -> 0 < currentTimeout g.

(** The window the [minutes] argument is clamped into. *)
Definition clamp_minutes (m : Z) : Z := Z.max 0 (Z.min 720 m).

(** [cancelTimer()] as the design document words it: the active flag is
    cleared and nothing else is touched. *)
Definition spec_cancelTimer (g : Globals) : Globals :=
  set_timeoutActive false g.

(** The remaining time as the design document words it: 0 unless the timer
    is active and the lamp on, otherwise the budget minus the elapsed
    clock time, floored at 0, in whole seconds. *)
Definition spec_remainingSeconds (lampOn : bool) (now : Z) (g : Globals) : Z :=
  if timeoutActive g && lampOn
  then Z.max 0 (currentTimeout g * 60000 - usub now (timeoutStart g)) / 1000
  else 0.

(** The lamp-by-timer table of the control loop, one conjunct per row:
    [g] is the state the checks find, [g'] the state they leave, [lampOn]
    the lamp reading and [now] the clock reading of the expiry test. *)
Definition lamp_timer_table
  (lampOn : Globals -> bool) (now : Z) (g g' : Globals) : Prop :=
  (timeoutActive g = true -> lampOn g = true ->
   currentTimeout g * 60000 <= usub now (timeoutStart g) ->
   pins g' = GPIO.digitalWrite 5 HIGH (pins g)
   /\ lampOn g' = false /\ relayState g' = false /\ timeoutActive g' = false
   /\ currentTimeout g' = currentTimeout g
   /\ timeoutStart g' = timeoutStart g
   /\ moduleStartTime g' = moduleStartTime g)
  /\ (timeoutActive g = true -> lampOn g = false ->
      g' = set_timeoutActive false g)
  /\ (timeoutActive g = true -> lampOn g = true ->
      usub now (timeoutStart g) < currentTimeout g * 60000 ->
      g' = g)
  /\ (timeoutActive g = false -> g' = g).

(** ** States the device reaches *)

(** A state left by a pass of [loop] whose expiry test read the clock at
    [tExpiry], in either sketch, the duration being in the handlers'
    window when the pass began. *)
Definition left_by_pass (tExpiry : Z) (g : Globals) : Prop :=
  exists (g0 : Globals) (req : option Request) (tClient tSafety last : Z),
    0 <= currentTimeout g0 <= 720
    /\ (g = after (Recommended.loop req tClient tExpiry tSafety g0)
        \/ g = Optimized.globals
                 (after (Optimized.loop req tClient tExpiry
                           (Optimized.mkState g0 last)))).

(** A state a status text is built on at clock reading [now]: the state
    [setup] or the last pass left, as [handleStatus] finds it, or what a
    handler served at [now] has made of it, as [handleOnApi] and
    [handleOffApi] report it. *)
Definition reached_for_status (tExpiry now : Z) (g : Globals) : Prop :=
  exists g1 : Globals,
    (left_by_pass tExpiry g1
     \/ exists boot pins0 : Z, g1 = Recommended.setup boot pins0)
    /\ (g = g1
        \/ exists r : Request, g = fst (Recommended.dispatch r now g1)).

(** ** Further invariants of the sketches *)

(** An active timer goes with a lamp that is on. *)
Definition lamp_timer_coupled (g : Globals) : Prop :=
  timeoutActive g = true -> Recommended.isLampOn g = true.

(** The legacy variable [relayState] mirrors the relay. *)
Definition relay_mirror (g : Globals) : Prop :=
  relayState g = Recommended.isLampOn g.

(** ** Texts on the wire *)

(** Every character is a decimal digit. *)
Fixpoint all_digits (s : string) : bool :=
  match s with
  | String c r =>
      match Arduino.digit_value c with
      | Some _ => all_digits r
      | None => false
      end
  | EmptyString => true
  end.

(** What the control scripts do with a status response: [grep -q] (and
    [findstr]) with a pattern free of special characters succeeds exactly
    when the pattern occurs somewhere in the one-line text. *)
Definition grep_q (pattern text : string) : bool :=
  match String.index 0 pattern text with
  | Some _ => true
  | None => false
  end.

(** The two patterns of [get_status] in the shell script. *)
Definition pattern_on_true : string :=
  (dquote ++ "on" ++ dquote ++ ":true")%string.
Definition pattern_timeoutActive_true : string :=
  (dquote ++ "timeoutActive" ++ dquote ++ ":true")%string.

(** The size of a text in bytes, as an integer. *)
Definition text_size (s : string) : Z := Z.of_nat (String.length s).

(** The requests that command the relay: [/on], [/api/on] and a
    [/timeout] that starts a timer switch it on, [/off] and [/api/off]
    switch it off. *)
Definition switches_on (r : Request) : bool :=
  match r with
  | GetOn | GetApiOn => true
  | GetTimeout (Some a) => 1 <=? clamp_minutes (Arduino.toInt a)
  | _ => false
  end.

Definition switches_off (r : Request) : bool :=
  match r with
  | GetOff | GetApiOff => true
  | _ => false
  end.

(** ** Machine arithmetic and GPIO facts *)

Lemma to_ulong_small (z : Z) : 0 <= z < 2 ^ 32 -> to_ulong z = z.
Proof. intros H. unfold to_ulong, ULONG_MOD. apply Z.mod_small; exact H. Qed.

Lemma to_long_small (z : Z) : - 2 ^ 31 <= z < 2 ^ 31 -> to_long z = z.
Proof.
  intros H. unfold to_long, ULONG_MOD.
  rewrite Z.mod_small; lia.
Qed.

Lemma usub_range (a b : Z) : 0 <= usub a b < 2 ^ 32.
Proof. unfold usub, to_ulong, ULONG_MOD. apply Z.mod_pos_bound. lia. Qed.

Lemma usub_diag (a : Z) : usub a a = 0.
Proof. unfold usub, to_ulong. rewrite Z.sub_diag. reflexivity. Qed.

Lemma umul_minutes (m : Z) : 0 <= m <= 720 -> umul m 60000 = m * 60000.
Proof. intros H. unfold umul. apply to_ulong_small. lia. Qed.

Lemma GPIO_READ_testbit (pin pins : Z) :
  0 <= pin -> GPIO.GPIO_READ pin pins = Z.b2z (Z.testbit pins pin).
Proof.
  intros Hpin. unfold GPIO.GPIO_READ.
  change 1 with (Z.ones 1). rewrite Z.land_ones by lia.
  change (2 ^ 1) with 2. rewrite <- Z.bit0_mod.
  rewrite Z.shiftr_spec by lia. reflexivity.
Qed.

Lemma testbit_write_GPOS (pin pins : Z) :
  0 <= pin -> Z.testbit (GPIO.write_GPOS (Z.shiftl 1 pin) pins) pin = true.
Proof.
  intros Hpin. unfold GPIO.write_GPOS.
  rewrite Z.lor_spec, Z.shiftl_spec by lia.
  rewrite Z.sub_diag. simpl. apply orb_true_r.
Qed.

Lemma testbit_write_GPOC (pin pins : Z) :
  0 <= pin -> Z.testbit (GPIO.write_GPOC (Z.shiftl 1 pin) pins) pin = false.
Proof.
  intros Hpin. unfold GPIO.write_GPOC.
  rewrite Z.land_spec, Z.lnot_spec, Z.shiftl_spec by lia.
  rewrite Z.sub_diag. simpl. apply andb_false_r.
Qed.

(** The two sketches read and drive the relay alike. *)
Lemma isLampOn_agree (g : Globals) :
  Optimized.isLampOn g = Recommended.isLampOn g.
Proof.
  unfold Optimized.isLampOn, Recommended.isLampOn, GPIO.digitalRead,
    Recommended.relayPin.
  rewrite GPIO_READ_testbit by lia.
  destruct (Z.testbit (pins g) 5); reflexivity.
Qed.

Lemma setLamp_agree (b : bool) (g : Globals) :
  Optimized.setLamp b g = Recommended.setLamp b g.
Proof. destruct b; reflexivity. Qed.

Lemma isLampOn_setLamp (b : bool) (g : Globals) :
  Recommended.isLampOn (Recommended.setLamp b g) = b.
Proof.
  unfold Recommended.isLampOn, Recommended.setLamp, GPIO.digitalRead,
    GPIO.digitalWrite, Recommended.relayPin, set_pins.
  destruct b; cbn [pins].
  - rewrite testbit_write_GPOC by lia. reflexivity.
  - rewrite testbit_write_GPOS by lia. reflexivity.
Qed.

Lemma isLampOn_pins (g g' : Globals) :
  pins g' = pins g -> Recommended.isLampOn g' = Recommended.isLampOn g.
Proof. unfold Recommended.isLampOn. intros ->. reflexivity. Qed.

(** ** The optimized sketch against the recommended one *)

Lemma fastItoa_digits_agree (fuel : nat) (value : Z) (temp : string) :
  Optimized.fastItoa_digits fuel value temp
  = Arduino.push_digits fuel value temp.
Proof.
  revert value temp. induction fuel as [|fuel IH]; intros value temp; simpl.
  - reflexivity.
  - destruct (value >? 0); [apply IH | reflexivity].
Qed.

Lemma fastItoa_agree (value : Z) :
  Optimized.fastItoa value = Arduino.String_of_ulong value.
Proof.
  unfold Optimized.fastItoa, Arduino.String_of_ulong.
  destruct (value =? 0); [reflexivity | apply fastItoa_digits_agree].
Qed.

Lemma statusFields_agree (now : Z) (g : Globals) :
  Optimized.statusFields now g = Recommended.statusFields now g.
Proof.
  unfold Optimized.statusFields, Recommended.statusFields,
    Optimized.calculateRemainingSeconds.
  rewrite isLampOn_agree.
  destruct (timeoutActive g), (Recommended.isLampOn g); reflexivity.
Qed.

Lemma buildStatusJson_agree (now : Z) (g : Globals) :
  Optimized.buildStatusJson now g = Recommended.buildStatusJson now g.
Proof.
  unfold Optimized.buildStatusJson, Recommended.buildStatusJson.
  rewrite statusFields_agree, fastItoa_agree. reflexivity.
Qed.

Lemma handleTimeout_agree (arg : option string) (now : Z) (g : Globals) :
  Optimized.handleTimeout arg now g = Recommended.handleTimeout arg now g.
Proof.
  unfold Optimized.handleTimeout, Recommended.handleTimeout.
  destruct arg as [a|]; [|reflexivity].
  rewrite isLampOn_agree, setLamp_agree. reflexivity.
Qed.

Lemma dispatch_agree (r : Request) (now : Z) (g : Globals) :
  Optimized.dispatch r now g = Recommended.dispatch r now g.
Proof.
  destruct r; cbn [Optimized.dispatch Recommended.dispatch].
  - reflexivity.
  - reflexivity.
  - apply handleTimeout_agree.
  - unfold Optimized.handleStatus, Recommended.handleStatus.
    rewrite buildStatusJson_agree. reflexivity.
  - unfold Optimized.handleOnApi, Recommended.handleOnApi,
      Optimized.sendJsonResponse.
    rewrite buildStatusJson_agree. reflexivity.
  - unfold Optimized.handleOffApi, Recommended.handleOffApi,
      Optimized.sendJsonResponse.
    rewrite buildStatusJson_agree. reflexivity.
Qed.

Lemma handleClient_agree (req : option Request) (now : Z) (g : Globals) :
  Optimized.handleClient req now g = Recommended.handleClient req now g.
Proof.
  destruct req as [r|]; [|reflexivity].
  unfold Optimized.handleClient, Recommended.handleClient.
  rewrite dispatch_agree. reflexivity.
Qed.

(** With one clock reading for both tests, the optimized checks leave the
    globals of the recommended checks, and restart exactly when the
    30-minute cadence is due and the recommended checks restart. *)
Lemma checks_agree (cm last : Z) (g : Globals) :
  Optimized.globals (fst (Optimized.checks cm (Optimized.mkState g last)))
  = fst (Recommended.checks cm cm g)
  /\ snd (Optimized.checks cm (Optimized.mkState g last))
     = (Optimized.SAFETY_CHECK_INTERVAL <=? usub cm last)
       && snd (Recommended.checks cm cm g).
Proof.
  unfold Optimized.checks, Recommended.checks.
  cbv zeta. cbn [Optimized.globals Optimized.lastSafetyCheck].
  rewrite !isLampOn_agree, !setLamp_agree.
  destruct (Optimized.SAFETY_CHECK_INTERVAL <=? usub cm last);
    cbn [fst snd Optimized.globals andb]; split; reflexivity.
Qed.

(** ** The [/timeout] handler in closed form *)

Lemma clamp_minutes_range (m : Z) : 0 <= clamp_minutes m <= 720.
Proof. unfold clamp_minutes. lia. Qed.

(** The handler with an argument: a start with the clamped value when it
    is at least 1, the disable branch otherwise. *)
Lemma handleTimeout_present (a : string) (now : Z) (g : Globals) :
  Recommended.handleTimeout (Some a) now g
  = (if 1 <=? clamp_minutes (Arduino.toInt a)
     then set_timeoutStart now
            (set_timeoutActive true
               (set_currentTimeout (clamp_minutes (Arduino.toInt a))
                  (if negb (Recommended.isLampOn g)
                   then set_relayState true (Recommended.setLamp true g)
                   else g)))
     else set_currentTimeout 0 (set_timeoutActive false g),
     Redirect).
Proof.
  unfold Recommended.handleTimeout, clamp_minutes.
  set (m := Arduino.toInt a).
  destruct (Z.ltb_spec m 0) as [Hneg|Hnonneg].
  - replace (Z.max 0 (Z.min 720 m)) with 0 by lia. reflexivity.
  - destruct (Z.gtb_spec m 720) as [Hbig|Hsmall].
    + replace (Z.max 0 (Z.min 720 m)) with 720 by lia. reflexivity.
    + replace (Z.max 0 (Z.min 720 m)) with m by lia.
      destruct (Z.gtb_spec m 0) as [Hpos|Hzero].
      * destruct (Z.leb_spec m 720); [|lia].
        destruct (Z.leb_spec 1 m); [|lia].
        cbn [andb]. rewrite to_ulong_small by lia. reflexivity.
      * destruct (Z.leb_spec 1 m); [lia|]. reflexivity.
Qed.

(** A text with no number reads as 0. *)
Lemma toInt_non_numeric (a : string) :
  Arduino.non_numeric a = true -> Arduino.toInt a = 0.
Proof.
  unfold Arduino.non_numeric, Arduino.toInt, Arduino.atol.
  assert (Hd : forall r, negb (Arduino.starts_with_digit r) = true ->
                         Arduino.read_digits 0 r = 0).
  { intros [|c r]; simpl; [reflexivity|].
    destruct (Arduino.digit_value c); [discriminate | reflexivity]. }
  destruct (Arduino.skip_spaces a) as [|c r] eqn:E.
  - intros _. reflexivity.
  - destruct c as [[] [] [] [] [] [] [] []]; intros H;
      rewrite (Hd _ H); reflexivity.
Qed.

(** ** Decimal texts read back by [toInt] *)

Lemma digit_value_digit (d : Z) :
  0 <= d < 10 ->
  Arduino.digit_value (ascii_of_nat (Z.to_nat (48 + d))) = Some d.
Proof.
  intros H.
  assert (Hc : d = 0 \/ d = 1 \/ d = 2 \/ d = 3 \/ d = 4 \/ d = 5 \/ d = 6
               \/ d = 7 \/ d = 8 \/ d = 9) by lia.
  repeat (destruct Hc as [-> | Hc]; [reflexivity|]).
  subst d. reflexivity.
Qed.

Lemma read_digits_push_digits (fuel : nat) :
  forall (v : Z) (temp : string),
    0 <= v < 10 ^ Z.of_nat fuel ->
    Arduino.read_digits 0 (Arduino.push_digits fuel v temp)
    = Arduino.read_digits v temp.
Proof.
  induction fuel as [|fuel IH]; intros v temp Hv.
  - cbn in Hv. assert (v = 0) by lia. subst v. reflexivity.
  - cbn [Arduino.push_digits].
    destruct (Z.gtb_spec v 0) as [Hpos|Hzero].
    + rewrite IH.
      * cbn [Arduino.read_digits].
        rewrite digit_value_digit by (apply Z.mod_pos_bound; lia).
        rewrite <- Z.div_mod by lia. reflexivity.
      * rewrite Nat2Z.inj_succ, Z.pow_succ_r in Hv by lia.
        split; [apply Z.div_pos; lia|].
        apply Z.div_lt_upper_bound; lia.
    + assert (v = 0) by lia. subst v. reflexivity.
Qed.

Lemma push_digits_starts_with_digit (fuel : nat) :
  forall (v : Z) (temp : string),
    Arduino.starts_with_digit temp = true ->
    Arduino.starts_with_digit (Arduino.push_digits fuel v temp) = true.
Proof.
  induction fuel as [|fuel IH]; intros v temp Ht; cbn [Arduino.push_digits].
  - exact Ht.
  - destruct (v >? 0); [|exact Ht].
    apply IH. cbn [Arduino.starts_with_digit].
    rewrite digit_value_digit by (apply Z.mod_pos_bound; lia).
    reflexivity.
Qed.

Lemma push_digits_step (fuel : nat) (v : Z) (temp : string) :
  Arduino.push_digits (S fuel) v temp
  = if v >? 0
    then Arduino.push_digits fuel (v / 10)
           (String (ascii_of_nat (Z.to_nat (48 + v mod 10))) temp)
    else temp.
Proof. reflexivity. Qed.

Lemma String_of_ulong_starts_with_digit (n : Z) :
  0 <= n -> Arduino.starts_with_digit (Arduino.String_of_ulong n) = true.
Proof.
  intros Hn. unfold Arduino.String_of_ulong.
  destruct (Z.eqb_spec n 0) as [Hz|Hnz]; [reflexivity|].
  change 16%nat with (S 15). rewrite push_digits_step.
  destruct (Z.gtb_spec n 0) as [Hpos|Hneg]; [|lia].
  apply push_digits_starts_with_digit. cbn [Arduino.starts_with_digit].
  rewrite digit_value_digit by (apply Z.mod_pos_bound; lia).
  reflexivity.
Qed.

Lemma atol_starts_with_digit (s : string) :
  Arduino.starts_with_digit s = true ->
  Arduino.atol s = Z.min LONG_MAX (Arduino.read_digits 0 s).
Proof.
  destruct s as [|c r]; [discriminate|].
  cbn [Arduino.starts_with_digit].
  destruct c as [[] [] [] [] [] [] [] []];
    first [discriminate | intros _; reflexivity].
Qed.

(** A value in the range of [long], written in decimal by
    [String(unsigned long)], reads back as itself; with a minus sign in
    front it reads back negated. *)
Lemma toInt_String_of_ulong (n : Z) :
  0 <= n <= LONG_MAX -> Arduino.toInt (Arduino.String_of_ulong n) = n.
Proof.
  intros Hn. unfold Arduino.toInt. unfold LONG_MAX in Hn.
  rewrite atol_starts_with_digit
    by (apply String_of_ulong_starts_with_digit; lia).
  unfold Arduino.String_of_ulong.
  destruct (Z.eqb_spec n 0) as [Hz|Hnz]; [subst n; reflexivity|].
  rewrite read_digits_push_digits by (cbn; lia).
  cbn [Arduino.read_digits]. unfold LONG_MAX. lia.
Qed.

Lemma toInt_minus_String_of_ulong (n : Z) :
  0 <= n <= 2 ^ 31 ->
  Arduino.toInt (String "-" (Arduino.String_of_ulong n)) = - n.
Proof.
  intros Hn. unfold Arduino.toInt, Arduino.atol.
  cbn [Arduino.skip_spaces]. change (Arduino.isspace "-") with false.
  cbv iota.
  unfold Arduino.String_of_ulong.
  destruct (Z.eqb_spec n 0) as [Hz|Hnz]; [subst n; reflexivity|].
  rewrite read_digits_push_digits by (cbn; lia).
  cbn [Arduino.read_digits]. unfold LONG_MIN. lia.
Qed.

(** ** Manual on and off *)

Lemma setLampWithState_off (g : Globals) :
  Optimized.setLampWithState false g = fst (Recommended.handleOff g).
Proof.
  unfold Optimized.setLampWithState, Recommended.handleOff.
  rewrite setLamp_agree. reflexivity.
Qed.

Lemma setLampWithState_on (g : Globals) :
  Optimized.setLampWithState true g = fst (Recommended.handleOn g).
Proof.
  unfold Optimized.setLampWithState, Recommended.handleOn.
  rewrite setLamp_agree. reflexivity.
Qed.

Lemma handleOff_effect (g : Globals) :
  fst (Recommended.handleOff g)
  = mkGlobals (GPIO.write_GPOS (Z.shiftl 1 5) (pins g)) false 0 false
              (timeoutStart g) (moduleStartTime g).
Proof. reflexivity. Qed.

Lemma handleOn_effect (g : Globals) :
  fst (Recommended.handleOn g)
  = mkGlobals (GPIO.write_GPOC (Z.shiftl 1 5) (pins g)) true
              (currentTimeout g) (timeoutActive g)
              (timeoutStart g) (moduleStartTime g).
Proof. reflexivity. Qed.

(** C1.  Whatever the state before, each turn-off handler (the routes /off
    and /api/off, in both sketches) drives the relay pin HIGH, so the lamp
    reads off, and clears the timer: the active flag is false afterwards,
    a status report taken at any later clock reading says the timer is
    not active, and the report /api/off itself sends is that one. *)
Theorem turn_off_clears_timer (now later : Z) (g : Globals) :
  let off (g' : Globals) : Prop :=
    pins g' = GPIO.digitalWrite 5 HIGH (pins g)
    /\ Recommended.isLampOn g' = false
    /\ Optimized.isLampOn g' = false
    /\ timeoutActive g' = false
    /\ timerActive (Recommended.statusFields later g') = false
    /\ timerActive (Optimized.statusFields later g') = false in
  off (fst (Recommended.handleOff g))
  /\ off (fst (Recommended.handleOffApi now g))
  /\ off (fst (Optimized.handleOff g))
  /\ off (fst (Optimized.handleOffApi now g))
  /\ snd (Recommended.handleOff g) = Redirect
  /\ snd (Optimized.handleOff g) = Redirect
  /\ snd (Recommended.handleOffApi now g)
     = Json (Recommended.buildStatusJson now (fst (Recommended.handleOff g)))
  /\ snd (Optimized.handleOffApi now g)
     = Json (Optimized.buildStatusJson now (fst (Optimized.handleOff g))).
Proof.
  intros off.
  assert (Hoff : off (fst (Recommended.handleOff g))).
  { unfold off. rewrite isLampOn_agree.
    assert (Hlamp : Recommended.isLampOn (fst (Recommended.handleOff g)) = false).
    { rewrite (isLampOn_pins (Recommended.setLamp false g)) by reflexivity.
      apply isLampOn_setLamp. }
    rewrite Hlamp. repeat split; reflexivity. }
  assert (Hopt : fst (Optimized.handleOff g) = fst (Recommended.handleOff g)).
  { unfold Optimized.handleOff. cbn [fst]. apply setLampWithState_off. }
  assert (Hapi : fst (Optimized.handleOffApi now g)
                 = fst (Recommended.handleOff g)).
  { unfold Optimized.handleOffApi. cbn [fst]. apply setLampWithState_off. }
  rewrite Hopt, Hapi.
  change (fst (Recommended.handleOffApi now g))
    with (fst (Recommended.handleOff g)).
  do 4 (split; [exact Hoff|]).
  repeat split.
Qed.

(** C8.  Each turn-on handler (the routes /on and /api/on, in both
    sketches) drives the relay pin LOW, so the lamp reads on, and leaves
    the three timer fields as they were: a running timer is neither
    restarted nor cancelled. *)
Theorem turn_on_keeps_timer (now : Z) (g : Globals) :
  let kept (g' : Globals) : Prop :=
    pins g' = GPIO.digitalWrite 5 LOW (pins g)
    /\ Recommended.isLampOn g' = true
    /\ Optimized.isLampOn g' = true
    /\ timeoutActive g' = timeoutActive g
    /\ currentTimeout g' = currentTimeout g
    /\ timeoutStart g' = timeoutStart g in
  kept (fst (Recommended.handleOn g))
  /\ kept (fst (Recommended.handleOnApi now g))
  /\ kept (fst (Optimized.handleOn g))
  /\ kept (fst (Optimized.handleOnApi now g)).
Proof.
  intros kept.
  assert (Hon : kept (fst (Recommended.handleOn g))).
  { unfold kept. rewrite isLampOn_agree.
    assert (Hlamp : Recommended.isLampOn (fst (Recommended.handleOn g)) = true).
    { rewrite (isLampOn_pins (Recommended.setLamp true g)) by reflexivity.
      apply isLampOn_setLamp. }
    rewrite Hlamp. repeat split; reflexivity. }
  assert (Hopt : fst (Optimized.handleOn g) = fst (Recommended.handleOn g)).
  { unfold Optimized.handleOn. cbn [fst]. apply setLampWithState_on. }
  assert (Hapi : fst (Optimized.handleOnApi now g)
                 = fst (Recommended.handleOn g)).
  { unfold Optimized.handleOnApi. cbn [fst]. apply setLampWithState_on. }
  rewrite Hopt, Hapi.
  change (fst (Recommended.handleOnApi now g))
    with (fst (Recommended.handleOn g)).
  do 3 (split; [exact Hon|]). exact Hon.
Qed.

(** ** The control loop: expiry and override-cancel *)

Lemma checks_table (tExpiry tSafety : Z) (g : Globals) :
  0 <= currentTimeout g <= 720 ->
  lamp_timer_table Recommended.isLampOn tExpiry g
    (fst (Recommended.checks tExpiry tSafety g)).
Proof.
  intros Hd. unfold lamp_timer_table, Recommended.checks.
  cbv zeta. cbn [fst]. rewrite umul_minutes by exact Hd.
  destruct (timeoutActive g) eqn:Ha; destruct (Recommended.isLampOn g) eqn:Hl;
    cbn [andb negb].
  - destruct (Z.leb_spec (currentTimeout g * 60000)
                (usub tExpiry (timeoutStart g))) as [Hexp|Hrun].
    + cbn [timeoutActive set_timeoutActive andb].
      split; [|split; [|split]]; try discriminate; [|intros; lia].
      intros _ _ _.
      rewrite (isLampOn_pins (Recommended.setLamp false g)) by reflexivity.
      rewrite isLampOn_setLamp. repeat split.
    + rewrite Ha, Hl. cbn [andb negb].
      split; [|split; [|split]]; try discriminate; [intros; lia|].
      reflexivity.
  - rewrite Ha, Hl. cbn [andb negb].
    split; [|split; [|split]]; try discriminate. reflexivity.
  - rewrite Ha. cbn [andb].
    split; [|split; [|split]]; try discriminate. reflexivity.
  - rewrite Ha. cbn [andb].
    split; [|split; [|split]]; try discriminate. reflexivity.
Qed.

Lemma lamp_timer_table_optimized (now : Z) (g g' : Globals) :
  lamp_timer_table Recommended.isLampOn now g g' ->
  lamp_timer_table Optimized.isLampOn now g g'.
Proof.
  unfold lamp_timer_table. rewrite !isLampOn_agree. exact (fun H => H).
Qed.

(** One pass of [loop] is the client step followed by the checks. *)
Lemma loop_unfold (req : option Request) (tClient tExpiry tSafety : Z)
      (g : Globals) :
  Recommended.loop req tClient tExpiry tSafety g
  = mkLoopResult
      (fst (Recommended.checks tExpiry tSafety
              (fst (Recommended.handleClient req tClient g))))
      (snd (Recommended.handleClient req tClient g))
      (snd (Recommended.checks tExpiry tSafety
              (fst (Recommended.handleClient req tClient g)))).
Proof.
  unfold Recommended.loop.
  destruct (Recommended.handleClient req tClient g) as [g1 resp].
  cbn [fst snd].
  destruct (Recommended.checks tExpiry tSafety g1) as [g2 restart].
  reflexivity.
Qed.

Lemma optimized_loop_unfold (req : option Request) (tClient currentMillis : Z)
      (g : Globals) (last : Z) :
  Optimized.loop req tClient currentMillis (Optimized.mkState g last)
  = mkLoopResult
      (fst (Optimized.checks currentMillis
              (Optimized.mkState
                 (fst (Recommended.handleClient req tClient g)) last)))
      (snd (Recommended.handleClient req tClient g))
      (snd (Optimized.checks currentMillis
              (Optimized.mkState
                 (fst (Recommended.handleClient req tClient g)) last))).
Proof.
  unfold Optimized.loop. cbn [Optimized.globals Optimized.lastSafetyCheck].
  rewrite handleClient_agree.
  destruct (Recommended.handleClient req tClient g) as [g1 resp].
  cbn [fst snd].
  destruct (Optimized.checks currentMillis (Optimized.mkState g1 last))
    as [s2 restart].
  reflexivity.
Qed.

(** The handlers keep the duration inside the window 0..720. *)
Lemma dispatch_duration_range (r : Request) (now : Z) (g : Globals) :
  0 <= currentTimeout g <= 720 ->
  0 <= currentTimeout (fst (Recommended.dispatch r now g)) <= 720.
Proof.
  intros Hd. destruct r as [| |arg| | |]; cbn [Recommended.dispatch].
  - exact Hd.
  - cbn. lia.
  - destruct arg as [a|]; [|exact Hd].
    rewrite handleTimeout_present. cbn [fst].
    pose proof (clamp_minutes_range (Arduino.toInt a)) as Hc.
    destruct (1 <=? clamp_minutes (Arduino.toInt a)); cbn; lia.
  - exact Hd.
  - exact Hd.
  - cbn. lia.
Qed.

Lemma handleClient_duration_range (req : option Request) (now : Z)
      (g : Globals) :
  0 <= currentTimeout g <= 720 ->
  0 <= currentTimeout (fst (Recommended.handleClient req now g)) <= 720.
Proof.
  intros Hd. destruct req as [r|]; [|exact Hd].
  unfold Recommended.handleClient.
  pose proof (dispatch_duration_range r now g Hd) as H.
  destruct (Recommended.dispatch r now g) as [g' resp]. exact H.
Qed.

Lemma checks_currentTimeout (tExpiry tSafety : Z) (g : Globals) :
  currentTimeout (fst (Recommended.checks tExpiry tSafety g))
  = currentTimeout g.
Proof.
  unfold Recommended.checks. cbv zeta. cbn [fst].
  repeat match goal with
         | |- context [if ?c then _ else _] => destruct c
         end; reflexivity.
Qed.

(** The duration window 0..720 holds after [setup] and is kept by every
    pass of [loop], in both sketches: it holds in every state the device
    reaches. *)
Lemma duration_range_reached (g : Globals) :
  0 <= currentTimeout g <= 720 ->
  (forall now pins0 : Z,
      0 <= currentTimeout (Recommended.setup now pins0) <= 720
      /\ 0 <= currentTimeout (Optimized.globals (Optimized.setup now pins0))
         <= 720)
  /\ (forall (req : option Request) (tClient tExpiry tSafety : Z),
         0 <= currentTimeout
                (after (Recommended.loop req tClient tExpiry tSafety g))
         <= 720)
  /\ (forall (req : option Request) (tClient currentMillis last : Z),
         0 <= currentTimeout
                (Optimized.globals
                   (after (Optimized.loop req tClient currentMillis
                             (Optimized.mkState g last))))
         <= 720).
Proof.
  intros Hd. split; [|split].
  - intros now pins0. cbn. lia.
  - intros req tClient tExpiry tSafety.
    rewrite loop_unfold. cbn [after]. rewrite checks_currentTimeout.
    apply handleClient_duration_range, Hd.
  - intros req tClient currentMillis last.
    rewrite optimized_loop_unfold. cbn [after].
    rewrite (proj1 (checks_agree currentMillis last _)).
    rewrite checks_currentTimeout.
    apply handleClient_duration_range, Hd.
Qed.

(** C2.  For a duration in the handlers' range, one pass of [loop]
    follows the lamp-by-timer table, in both sketches and whatever the
    safety check then decides.  With [g1] the globals once the pending
    request, if any, has been served: timer active, lamp on and the
    wrapped clock difference since the start at least the duration times
    60000 ms: the lamp is driven off and the timer marked inactive, and
    the override test that follows finds nothing more to do; timer active
    and lamp off: only the active flag is cleared, the relay and every
    other field stay as they were; the other combinations (active and on
    but not yet expired, or inactive) leave every global unchanged. *)
Theorem tick_follows_lamp_timer_table
  (req : option Request) (tClient tExpiry tSafety currentMillis last : Z)
  (g : Globals) (Hd : 0 <= currentTimeout g <= 720) :
  lamp_timer_table Recommended.isLampOn tExpiry
    (fst (Recommended.handleClient req tClient g))
    (after (Recommended.loop req tClient tExpiry tSafety g))
  /\ lamp_timer_table Optimized.isLampOn currentMillis
       (fst (Optimized.handleClient req tClient g))
       (Optimized.globals
          (after (Optimized.loop req tClient currentMillis
                    (Optimized.mkState g last)))).
Proof.
  pose proof (handleClient_duration_range req tClient g Hd) as Hd1.
  rewrite loop_unfold, optimized_loop_unfold, handleClient_agree.
  cbn [after]. split.
  - apply checks_table; exact Hd1.
  - apply lamp_timer_table_optimized.
    rewrite (proj1 (checks_agree currentMillis last _)).
    apply checks_table; exact Hd1.
Qed.

(** ** The remaining time of a status report *)

Lemma remaining_ms_closed_form (d e : Z) :
  0 <= d <= 720 -> 0 <= e < 2 ^ 31 ->
  to_ulong
    (Z.quot
       (let r := lsub (to_long (umul d 60000)) (to_long e) in
        if r <? 0 then 0 else r)
       1000)
  = Z.max 0 (d * 60000 - e) / 1000.
Proof.
  intros Hd He. cbv zeta.
  rewrite umul_minutes by exact Hd.
  rewrite (to_long_small (d * 60000)) by lia.
  rewrite (to_long_small e) by lia.
  unfold lsub. rewrite to_long_small by lia.
  assert (Hclamp : (if d * 60000 - e <? 0 then 0 else d * 60000 - e)
                   = Z.max 0 (d * 60000 - e)).
  { destruct (Z.ltb_spec (d * 60000 - e) 0); lia. }
  rewrite Hclamp.
  rewrite Z.quot_div_nonneg by lia.
  apply to_ulong_small. split.
  - apply Z.div_pos; lia.
  - apply Z.div_lt_upper_bound; lia.
Qed.

Lemma statusFields_remaining (now : Z) (g : Globals) :
  0 <= currentTimeout g <= 720 ->
  usub now (timeoutStart g) < 2 ^ 31 ->
  remainingSeconds (Recommended.statusFields now g)
  = spec_remainingSeconds (Recommended.isLampOn g) now g.
Proof.
  intros Hd He.
  unfold Recommended.statusFields, spec_remainingSeconds.
  cbn [remainingSeconds].
  destruct (timeoutActive g && Recommended.isLampOn g); [|reflexivity].
  pose proof (usub_range now (timeoutStart g)) as Hr.
  apply (remaining_ms_closed_form (currentTimeout g)
           (usub now (timeoutStart g))); lia.
Qed.

Lemma usub_split (a b c : Z) :
  usub a b + usub b c < 2 ^ 32 -> usub a c = usub a b + usub b c.
Proof.
  intros Hsum.
  pose proof (usub_range a b) as Hab. pose proof (usub_range b c) as Hbc.
  unfold usub, to_ulong, ULONG_MOD in *.
  replace (a - c) with ((a - b) + (b - c)) by lia.
  rewrite Z.add_mod by lia. apply Z.mod_small. lia.
Qed.

(** A timer still active after the checks was left alone by them and is
    below its budget at the clock reading of the expiry test. *)
Lemma checks_active_below_budget (tExpiry tSafety : Z) (g : Globals) :
  0 <= currentTimeout g <= 720 ->
  timeoutActive (fst (Recommended.checks tExpiry tSafety g)) = true ->
  fst (Recommended.checks tExpiry tSafety g) = g
  /\ usub tExpiry (timeoutStart g) < currentTimeout g * 60000.
Proof.
  intros Hd Hact.
  destruct (checks_table tExpiry tSafety g Hd) as (Hexp & Hoff & Hrun & Hina).
  destruct (timeoutActive g) eqn:Ha.
  - destruct (Recommended.isLampOn g) eqn:Hl.
    + destruct (Z.lt_ge_cases (usub tExpiry (timeoutStart g))
                  (currentTimeout g * 60000)) as [Hlt|Hge].
      * split; [apply Hrun; auto | exact Hlt].
      * destruct (Hexp eq_refl eq_refl Hge) as (_ & _ & _ & Hina' & _).
        rewrite Hina' in Hact. discriminate Hact.
    + rewrite (Hoff eq_refl eq_refl) in Hact. discriminate Hact.
  - rewrite (Hina eq_refl), Ha in Hact. discriminate Hact.
Qed.

(** What a pass leaves: the duration in the handlers' window and an
    active timer below its budget at the pass's expiry reading. *)
Lemma left_by_pass_below_budget (tExpiry : Z) (g : Globals) :
  left_by_pass tExpiry g ->
  0 <= currentTimeout g <= 720
  /\ (timeoutActive g = true ->
      usub tExpiry (timeoutStart g) < currentTimeout g * 60000).
Proof.
  intros (g0 & req & tClient & tSafety & last & Hd0 & Hg).
  pose proof (handleClient_duration_range req tClient g0 Hd0) as Hd1.
  assert (Hchecks : forall tS : Z,
             g = fst (Recommended.checks tExpiry tS
                        (fst (Recommended.handleClient req tClient g0))) ->
             0 <= currentTimeout g <= 720
             /\ (timeoutActive g = true ->
                 usub tExpiry (timeoutStart g) < currentTimeout g * 60000)).
  { intros tS ->. split.
    - rewrite checks_currentTimeout. exact Hd1.
    - intros Hact.
      destruct (checks_active_below_budget tExpiry tS _ Hd1 Hact)
        as [Heq Hlt].
      rewrite Heq. exact Hlt. }
  destruct Hg as [Hg|Hg].
  - apply (Hchecks tSafety). rewrite Hg, loop_unfold. reflexivity.
  - apply (Hchecks tExpiry). rewrite Hg, optimized_loop_unfold.
    cbn [after]. apply (proj1 (checks_agree tExpiry last _)).
Qed.

(** On every state a status text is built on, the duration is in the
    handlers' window, and an active timer has a wrapped elapsed time
    below 2^31 ms as long as the text is built within 2^31 - 43200000 ms
    (over 24 days) of the expiry test of the last pass. *)
Lemma reached_for_status_range (tExpiry now : Z) (g : Globals) :
  reached_for_status tExpiry now g ->
  usub now tExpiry < 2 ^ 31 - 43200000 ->
  0 <= currentTimeout g <= 720
  /\ (timeoutActive g = true -> usub now (timeoutStart g) < 2 ^ 31).
Proof.
  intros (g1 & Hleft & Hg) Hwin.
  assert (H1 : 0 <= currentTimeout g1 <= 720
               /\ (timeoutActive g1 = true ->
                   usub now (timeoutStart g1) < 2 ^ 31)).
  { destruct Hleft as [Hleft | (boot & pins0 & ->)].
    - destruct (left_by_pass_below_budget tExpiry g1 Hleft) as [Hd Hlt].
      split; [exact Hd|]. intros Hact. specialize (Hlt Hact).
      pose proof (usub_range now tExpiry) as Hr1.
      pose proof (usub_range tExpiry (timeoutStart g1)) as Hr2.
      rewrite (usub_split now tExpiry (timeoutStart g1)) by lia. lia.
    - split; [cbn; lia|]. intros Hact. discriminate Hact. }
  destruct H1 as [Hd1 He1].
  destruct Hg as [-> | (r & ->)]; [split; assumption|].
  split; [apply dispatch_duration_range; exact Hd1|].
  destruct r as [| |arg| | |]; cbn [Recommended.dispatch];
    try exact He1; try (intros Hact; discriminate Hact).
  destruct arg as [a|]; [|exact He1].
  rewrite handleTimeout_present. cbn [fst].
  destruct (1 <=? clamp_minutes (Arduino.toInt a)).
  - intros _. cbn [timeoutStart set_timeoutStart].
    rewrite usub_diag. lia.
  - intros Hact. discriminate Hact.
Qed.

(** C5.  In every state and at every clock reading the remaining seconds
    of a status report are 0 if the timer is inactive or the lamp is
    off.  When the duration is in the handlers' range and the wrapped
    clock difference since the start is below 2^31 ms, they are
    otherwise the duration times 60000 minus the elapsed milliseconds,
    floored at 0 and divided by 1000 rounding down, so once the elapsed
    time passes the budget the report says 0.  Both conditions hold, and
    so does the equation, on every state the device builds a status text
    on: the state [setup] or a pass of [loop] left, or what a handler of
    the next pass made of it, read within 2^31 - 43200000 ms of that
    pass's expiry test.  Both sketches. *)
Theorem remaining_seconds_saturates (now : Z) (g : Globals) :
  (timeoutActive g = false \/ Recommended.isLampOn g = false ->
   remainingSeconds (Recommended.statusFields now g) = 0
   /\ remainingSeconds (Optimized.statusFields now g) = 0)
  /\ (0 <= currentTimeout g <= 720 ->
      usub now (timeoutStart g) < 2 ^ 31 ->
      remainingSeconds (Recommended.statusFields now g)
      = spec_remainingSeconds (Recommended.isLampOn g) now g
      /\ remainingSeconds (Optimized.statusFields now g)
         = spec_remainingSeconds (Optimized.isLampOn g) now g)
  /\ (forall tExpiry : Z,
         reached_for_status tExpiry now g ->
         usub now tExpiry < 2 ^ 31 - 43200000 ->
         remainingSeconds (Recommended.statusFields now g)
         = spec_remainingSeconds (Recommended.isLampOn g) now g
         /\ remainingSeconds (Optimized.statusFields now g)
            = spec_remainingSeconds (Optimized.isLampOn g) now g).
Proof.
  rewrite statusFields_agree, isLampOn_agree. split; [|split].
  - intros Hidle.
    assert (Hcond : timeoutActive g && Recommended.isLampOn g = false).
    { destruct Hidle as [-> | ->]; [reflexivity | apply andb_false_r]. }
    unfold Recommended.statusFields. cbn [remainingSeconds].
    rewrite Hcond. split; reflexivity.
  - intros Hd He. split; apply statusFields_remaining; assumption.
  - intros tExpiry Hreached Hwin.
    destruct (reached_for_status_range tExpiry now g Hreached Hwin)
      as [Hd He].
    assert (H : remainingSeconds (Recommended.statusFields now g)
                = spec_remainingSeconds (Recommended.isLampOn g) now g).
    { destruct (timeoutActive g) eqn:Ha.
      - apply statusFields_remaining; [exact Hd | apply He; reflexivity].
      - unfold Recommended.statusFields, spec_remainingSeconds.
        cbn [remainingSeconds]. rewrite Ha. reflexivity. }
    split; exact H.
Qed.

(** ** The safety restart *)

Lemma dispatch_moduleStartTime (r : Request) (now : Z) (g : Globals) :
  moduleStartTime (fst (Recommended.dispatch r now g)) = moduleStartTime g.
Proof.
  destruct r as [| |arg| | |]; try reflexivity.
  cbn [Recommended.dispatch]. destruct arg as [a|]; [|reflexivity].
  rewrite handleTimeout_present. cbn [fst].
  destruct (1 <=? clamp_minutes (Arduino.toInt a)); [|reflexivity].
  destruct (Recommended.isLampOn g); reflexivity.
Qed.

Lemma handleClient_moduleStartTime (req : option Request) (now : Z)
      (g : Globals) :
  moduleStartTime (fst (Recommended.handleClient req now g))
  = moduleStartTime g.
Proof.
  destruct req as [r|]; [|reflexivity].
  unfold Recommended.handleClient.
  pose proof (dispatch_moduleStartTime r now g) as H.
  destruct (Recommended.dispatch r now g) as [g' resp]. exact H.
Qed.

Lemma checks_moduleStartTime (tExpiry tSafety : Z) (g : Globals) :
  moduleStartTime (fst (Recommended.checks tExpiry tSafety g))
  = moduleStartTime g.
Proof.
  unfold Recommended.checks. cbv zeta. cbn [fst].
  repeat match goal with
         | |- context [if ?c then _ else _] => destruct c
         end; reflexivity.
Qed.

(** The restart flag of the recommended checks, read on the state they
    leave. *)
Lemma checks_restart (tExpiry tSafety : Z) (g : Globals) :
  snd (Recommended.checks tExpiry tSafety g)
  = negb (Recommended.isLampOn (fst (Recommended.checks tExpiry tSafety g)))
    && (12 * 60 * 60 * 1000 <=? usub tSafety (moduleStartTime g)).
Proof.
  rewrite <- (checks_moduleStartTime tExpiry tSafety g).
  reflexivity.
Qed.

(** C3, as the code has it.  One pass of [loop] of the recommended sketch
    restarts the device exactly when, after the request and the timer
    checks of that pass, the lamp reads off and the wrapped clock
    difference since boot ([moduleStartTime]) is at least 12 hours; so it
    never restarts in a pass that leaves the lamp on.  The optimized
    sketch restarts exactly when, in addition, at least 30 minutes have
    passed since its previous safety check, that is: when its check is due
    and the recommended sketch, given the same clock reading, restarts;
    a due check moves [lastSafetyCheck] to the current reading. *)
Theorem safety_restart_condition
  (req : option Request) (tClient tExpiry tSafety currentMillis last : Z)
  (g : Globals) :
  let r := Recommended.loop req tClient tExpiry tSafety g in
  let o := Optimized.loop req tClient currentMillis
             (Optimized.mkState g last) in
  restarted r
  = negb (Recommended.isLampOn (after r))
    && (12 * 60 * 60 * 1000 <=? usub tSafety (moduleStartTime g))
  /\ restarted o
     = (30 * 60 * 1000 <=? usub currentMillis last)
       && (negb (Optimized.isLampOn (Optimized.globals (after o)))
           && (12 * 60 * 60 * 1000 <=? usub currentMillis (moduleStartTime g)))
  /\ restarted o
     = (30 * 60 * 1000 <=? usub currentMillis last)
       && restarted
            (Recommended.loop req tClient currentMillis currentMillis g)
  /\ Optimized.lastSafetyCheck (after o)
     = if 30 * 60 * 1000 <=? usub currentMillis last
       then currentMillis else last.
Proof.
  cbv zeta.
  rewrite !loop_unfold, optimized_loop_unfold. cbn [restarted after].
  set (g1 := fst (Recommended.handleClient req tClient g)).
  assert (Hm : moduleStartTime g1 = moduleStartTime g)
    by apply handleClient_moduleStartTime.
  destruct (checks_agree currentMillis last g1) as [Hg Hr].
  rewrite Hr, isLampOn_agree, Hg, !checks_restart, Hm.
  repeat split.
  unfold Optimized.checks. cbv zeta.
  cbn [Optimized.globals Optimized.lastSafetyCheck].
  change Optimized.SAFETY_CHECK_INTERVAL with (30 * 60 * 1000).
  destruct (30 * 60 * 1000 <=? usub currentMillis last); reflexivity.
Qed.

(** C3, counterexample.  First run, recommended sketch, boot at clock 0:
    the lamp is switched on at 1000 ms, is still on at the 12-hour mark
    (no restart), and is switched off by a request served at 12 h + 1 ms;
    that same pass restarts the device, with the lamp off for no time at
    all rather than for 12 hours.  Second run, lamp off throughout: the
    optimized sketch ran its safety check at 42000000 ms, so at the
    12-hour mark its check is not due and it does not restart, while the
    recommended sketch in the same state and at the same clock reading
    does. *)
Lemma safety_restart_counterexample :
  (let g0 := Recommended.setup 0 0 in
   let r1 := Recommended.loop (Some GetOn) 1000 1000 1000 g0 in
   let r2 := Recommended.loop None 43200000 43200000 43200000 (after r1) in
   let r3 := Recommended.loop (Some GetOff) 43200001 43200001 43200001
               (after r2) in
   restarted r1 = false /\ Recommended.isLampOn (after r1) = true
   /\ restarted r2 = false /\ Recommended.isLampOn (after r2) = true
   /\ restarted r3 = true)
  /\ (let s0 := Optimized.setup 0 0 in
      let o1 := Optimized.loop None 42000000 42000000 s0 in
      let o2 := Optimized.loop None 43200000 43200000 (after o1) in
      Optimized.isLampOn (Optimized.globals s0) = false
      /\ restarted o1 = false
      /\ Optimized.globals (after o1) = Recommended.setup 0 0
      /\ restarted o2 = false
      /\ restarted
           (Recommended.loop None 43200000 43200000 43200000
              (Optimized.globals (after o1))) = true).
Proof. vm_compute. repeat split. Qed.

(** The bound on the elapsed time is needed by the arithmetic, though no
    pass leaves a state that breaks it: on a one-minute timer started at
    clock 0 and somehow still active with the lamp on at clock
    2^32 - 1000, the elapsed 4294966296 ms read as a [long] are -1000,
    the difference is 61000 ms and the report would say 61 seconds.  Any
    pass of [loop] from 60000 ms on has cleared such a timer. *)
Lemma remaining_seconds_outside_range :
  let g := mkGlobals 0 true 1 true 0 0 in
  let now := 4294966296 in
  Recommended.isLampOn g = true
  /\ timeoutActive g = true
  /\ usub now (timeoutStart g) = 4294966296
  /\ spec_remainingSeconds (Recommended.isLampOn g) now g = 0
  /\ remainingSeconds (Recommended.statusFields now g) = 61
  /\ remainingSeconds (Optimized.statusFields now g) = 61
  /\ remainingSeconds (Recommended.statusFields now g)
     <> spec_remainingSeconds (Recommended.isLampOn g) now g.
Proof. vm_compute. repeat split. discriminate. Qed.

(** ** The [/timeout] route *)

(** C4, counterexample.  A 30-minute timer is running; a request
    /timeout?minutes=abc arrives.  The text reads as 0, the handler takes
    the disable branch, and the timer is no longer active and its duration
    is 0: the request was not a no-op.  Both sketches. *)
Lemma malformed_minutes_counterexample :
  let g := mkGlobals 0 true 30 true 1000 0 in
  Arduino.non_numeric "abc" = true
  /\ Arduino.toInt "abc" = 0
  /\ timeoutActive g = true
  /\ timeoutActive (fst (Recommended.handleTimeout (Some "abc"%string) 5000 g))
     = false
  /\ currentTimeout (fst (Recommended.handleTimeout (Some "abc"%string) 5000 g))
     = 0
  /\ fst (Recommended.handleTimeout (Some "abc"%string) 5000 g) <> g
  /\ fst (Optimized.handleTimeout (Some "abc"%string) 5000 g) <> g.
Proof. vm_compute. repeat split; discriminate. Qed.

(** C4, as the code has it.  A /timeout request without the [minutes]
    argument changes nothing.  A request whose argument holds no number
    is read as 0 and takes the disable branch: the active flag is cleared
    and the duration set to 0, while the relay, the start stamp and the
    other globals stay as they were.  Either way the response is the
    redirect.  Both sketches. *)
Theorem missing_or_non_numeric_minutes (a : string) (now : Z) (g : Globals) :
  Recommended.handleTimeout None now g = (g, Redirect)
  /\ Optimized.handleTimeout None now g = (g, Redirect)
  /\ (Arduino.non_numeric a = true ->
      Recommended.handleTimeout (Some a) now g
      = (set_currentTimeout 0 (set_timeoutActive false g), Redirect)
      /\ Optimized.handleTimeout (Some a) now g
         = (set_currentTimeout 0 (set_timeoutActive false g), Redirect)).
Proof.
  do 2 (split; [reflexivity|]).
  intros Ha.
  rewrite handleTimeout_agree, handleTimeout_present.
  rewrite (toInt_non_numeric a Ha).
  split; reflexivity.
Qed.

(** The start branch, field by field. *)
Lemma handleTimeout_start (a : string) (now : Z) (g : Globals) :
  1 <= clamp_minutes (Arduino.toInt a) ->
  let g' := fst (Recommended.handleTimeout (Some a) now g) in
  timeoutActive g' = true
  /\ currentTimeout g' = clamp_minutes (Arduino.toInt a)
  /\ timeoutStart g' = now
  /\ Recommended.isLampOn g' = true
  /\ (Recommended.isLampOn g = false ->
      pins g' = GPIO.digitalWrite 5 LOW (pins g) /\ relayState g' = true)
  /\ (Recommended.isLampOn g = true ->
      pins g' = pins g /\ relayState g' = relayState g).
Proof.
  intros HN. cbv zeta. rewrite handleTimeout_present.
  destruct (Z.leb_spec 1 (clamp_minutes (Arduino.toInt a))) as [_|Hlt];
    [|lia].
  cbn [fst].
  destruct (Recommended.isLampOn g) eqn:Hl; cbn [negb].
  - repeat split; try reflexivity; try discriminate.
    rewrite (isLampOn_pins g) by reflexivity. exact Hl.
  - repeat split; try reflexivity; try discriminate.
    rewrite (isLampOn_pins (Recommended.setLamp true g)) by reflexivity.
    apply isLampOn_setLamp.
Qed.

(** The same for a whole number of minutes written in decimal: any value
    from 1 up is accepted and starts a timer of at most 720 minutes, any
    value from 0 down takes the disable branch. *)
Lemma handleTimeout_decimal_start (z now : Z) (g : Globals) :
  1 <= z <= LONG_MAX ->
  let g' := fst (Recommended.handleTimeout
                   (Some (Arduino.String_of_ulong z)) now g) in
  timeoutActive g' = true
  /\ currentTimeout g' = Z.min 720 z
  /\ timeoutStart g' = now.
Proof.
  intros Hz. cbv zeta.
  assert (Hc : clamp_minutes (Arduino.toInt (Arduino.String_of_ulong z))
               = Z.min 720 z).
  { rewrite toInt_String_of_ulong by lia. unfold clamp_minutes. lia. }
  destruct (handleTimeout_start (Arduino.String_of_ulong z) now g)
    as (Hact & Hdur & Hstart & _); [lia|].
  cbv zeta in Hact, Hdur, Hstart. rewrite Hc in Hdur.
  repeat split; assumption.
Qed.

Lemma handleTimeout_decimal_disable (z now : Z) (g : Globals) :
  0 <= z <= 2 ^ 31 ->
  Recommended.handleTimeout
    (Some (String "-" (Arduino.String_of_ulong z))) now g
  = (set_currentTimeout 0 (set_timeoutActive false g), Redirect).
Proof.
  intros Hz. rewrite handleTimeout_present.
  rewrite toInt_minus_String_of_ulong by exact Hz.
  unfold clamp_minutes.
  destruct (Z.leb_spec 1 (Z.max 0 (Z.min 720 (- z)))); [lia|reflexivity].
Qed.

(** C6.  With the [minutes] argument present, whatever its text, the
    handler clamps the value read from it into 0..720 and never rejects
    it: the response is the redirect, and the state left is that of the
    start branch with the clamped value N when N is at least 1 and that
    of the disable branch otherwise.  So a value below 0, like 0 itself,
    only cancels the timer; a value above 720 starts a timer of 720
    minutes; a value from 1 to 720 starts a timer of that many minutes.
    A start leaves the timer active with duration N and start stamp the
    clock reading, and the lamp on: a lamp that was off is switched on,
    a lamp that was on is not touched.  Both sketches. *)
Theorem timeout_starts_timer (a : string) (now : Z) (g : Globals) :
  let N := clamp_minutes (Arduino.toInt a) in
  let g' := fst (Recommended.handleTimeout (Some a) now g) in
  (0 <= N <= 720
   /\ (Arduino.toInt a < 0 -> N = 0)
   /\ (720 < Arduino.toInt a -> N = 720)
   /\ (0 <= Arduino.toInt a <= 720 -> N = Arduino.toInt a))
  /\ snd (Recommended.handleTimeout (Some a) now g) = Redirect
  /\ Optimized.handleTimeout (Some a) now g
     = Recommended.handleTimeout (Some a) now g
  /\ (1 <= N ->
      timeoutActive g' = true
      /\ currentTimeout g' = N
      /\ timeoutStart g' = now
      /\ Recommended.isLampOn g' = true
      /\ (Recommended.isLampOn g = false ->
          pins g' = GPIO.digitalWrite 5 LOW (pins g) /\ relayState g' = true)
      /\ (Recommended.isLampOn g = true ->
          pins g' = pins g /\ relayState g' = relayState g))
  /\ g' = (if 1 <=? N
           then set_timeoutStart now
                  (set_timeoutActive true
                     (set_currentTimeout N
                        (if negb (Recommended.isLampOn g)
                         then set_relayState true (Recommended.setLamp true g)
                         else g)))
           else set_currentTimeout 0 (set_timeoutActive false g))
  /\ (Arduino.toInt a <= 0 ->
      g' = set_currentTimeout 0 (set_timeoutActive false g)
      /\ timeoutActive g' = false /\ currentTimeout g' = 0
      /\ pins g' = pins g /\ relayState g' = relayState g
      /\ timeoutStart g' = timeoutStart g)
  /\ (720 < Arduino.toInt a ->
      timeoutActive g' = true /\ currentTimeout g' = 720
      /\ timeoutStart g' = now /\ Recommended.isLampOn g' = true)
  /\ (1 <= Arduino.toInt a <= 720 ->
      timeoutActive g' = true /\ currentTimeout g' = Arduino.toInt a
      /\ timeoutStart g' = now /\ Recommended.isLampOn g' = true).
Proof.
  cbv zeta.
  split; [unfold clamp_minutes; lia|].
  split; [reflexivity|].
  split; [apply handleTimeout_agree|].
  split; [exact (handleTimeout_start a now g)|].
  split; [rewrite handleTimeout_present; reflexivity|].
  split; [|split].
  - intros Hle. rewrite handleTimeout_present. cbn [fst].
    destruct (Z.leb_spec 1 (clamp_minutes (Arduino.toInt a))) as [Hpos|_].
    + unfold clamp_minutes in Hpos. lia.
    + repeat split.
  - intros Hbig.
    assert (HN : clamp_minutes (Arduino.toInt a) = 720)
      by (unfold clamp_minutes; lia).
    destruct (handleTimeout_start a now g ltac:(lia))
      as (Hact & Hdur & Hstart & Hlamp & _).
    cbv zeta in Hact, Hdur, Hstart, Hlamp. rewrite HN in Hdur.
    repeat split; assumption.
  - intros Hin.
    assert (HN : clamp_minutes (Arduino.toInt a) = Arduino.toInt a)
      by (unfold clamp_minutes; lia).
    destruct (handleTimeout_start a now g ltac:(lia))
      as (Hact & Hdur & Hstart & Hlamp & _).
    cbv zeta in Hact, Hdur, Hstart, Hlamp. rewrite HN in Hdur.
    repeat split; assumption.
Qed.

(** C7.  A /timeout request whose clamped value is 0 does what
    [cancelTimer] does: the timer is inactive afterwards and the relay
    pin, its legacy mirror and so the lamp are as before.  The state left
    is that of [cancelTimer] with the duration also set to 0, and every
    status report on it equals the report on the [cancelTimer] state.
    Both sketches. *)
Theorem timeout_zero_is_cancel (a : string) (now later : Z) (g : Globals)
  (H0 : clamp_minutes (Arduino.toInt a) = 0) :
  let g' := fst (Recommended.handleTimeout (Some a) now g) in
  Optimized.handleTimeout (Some a) now g
  = Recommended.handleTimeout (Some a) now g
  /\ timeoutActive g' = false
  /\ pins g' = pins g
  /\ relayState g' = relayState g
  /\ Recommended.isLampOn g' = Recommended.isLampOn g
  /\ g' = set_currentTimeout 0 (spec_cancelTimer g)
  /\ Recommended.statusFields later g'
     = Recommended.statusFields later (spec_cancelTimer g)
  /\ Optimized.statusFields later g'
     = Optimized.statusFields later (spec_cancelTimer g).
Proof.
  cbv zeta.
  rewrite handleTimeout_agree, !statusFields_agree, handleTimeout_present, H0.
  cbn [Z.leb Z.compare fst].
  repeat split.
Qed.

(** C10.  A /timeout request with clamped value N at least 1 that finds a
    timer already active replaces it: the timer stays active, its
    duration is N and its start stamp the current clock reading, whatever
    the old duration and start stamp were; the lamp is on afterwards, and
    a lamp that was on is not touched; a status report taken at that same
    clock reading shows N times 60 seconds.  Both sketches. *)
Theorem timeout_replaces_running_timer (a : string) (now : Z) (g : Globals)
  (HN : 1 <= clamp_minutes (Arduino.toInt a))
  (Hactive : timeoutActive g = true) :
  let N := clamp_minutes (Arduino.toInt a) in
  let g' := fst (Recommended.handleTimeout (Some a) now g) in
  Optimized.handleTimeout (Some a) now g
  = Recommended.handleTimeout (Some a) now g
  /\ timeoutActive g' = true
  /\ currentTimeout g' = N
  /\ timeoutStart g' = now
  /\ Recommended.isLampOn g' = true
  /\ (Recommended.isLampOn g = true ->
      pins g' = pins g /\ relayState g' = relayState g)
  /\ (forall oldDuration oldStart : Z,
        fst (Recommended.handleTimeout (Some a) now
               (set_timeoutStart oldStart
                  (set_currentTimeout oldDuration g))) = g')
  /\ remainingSeconds (Recommended.statusFields now g') = N * 60
  /\ remainingSeconds (Optimized.statusFields now g') = N * 60.
Proof.
  cbv zeta.
  destruct (handleTimeout_start a now g HN)
    as (Hact' & Hdur & Hstart & Hlamp & _ & Hkeep).
  cbv zeta in Hact', Hdur, Hstart, Hlamp, Hkeep.
  pose proof (clamp_minutes_range (Arduino.toInt a)) as Hrange.
  rewrite statusFields_agree.
  assert (Hrem :
    remainingSeconds
      (Recommended.statusFields now
         (fst (Recommended.handleTimeout (Some a) now g)))
    = clamp_minutes (Arduino.toInt a) * 60).
  { rewrite statusFields_remaining;
      rewrite ?Hdur, ?Hstart, ?usub_diag; [|lia|lia].
    unfold spec_remainingSeconds.
    rewrite Hact', Hlamp, Hdur, Hstart, usub_diag. cbn [andb].
    rewrite Z.sub_0_r, Z.max_r by lia.
    replace (clamp_minutes (Arduino.toInt a) * 60000)
      with (clamp_minutes (Arduino.toInt a) * 60 * 1000) by lia.
    apply Z.div_mul. lia. }
  split; [apply handleTimeout_agree|].
  do 4 (split; [assumption|]).
  split; [exact Hkeep|].
  split; [|split; exact Hrem].
  intros oldDuration oldStart.
  rewrite !handleTimeout_present.
  destruct (Z.leb_spec 1 (clamp_minutes (Arduino.toInt a))) as [_|Hlt];
    [|lia].
  cbn [fst].
  rewrite (isLampOn_pins g (set_timeoutStart oldStart
                              (set_currentTimeout oldDuration g)))
    by reflexivity.
  destruct (Recommended.isLampOn g); reflexivity.
Qed.

(** ** The timer invariant *)

Lemma dispatch_timer_inv (r : Request) (now : Z) (g : Globals) :
  timer_inv g -> timer_inv (fst (Recommended.dispatch r now g)).
Proof.
  intros Hinv. destruct r as [| |arg| | |]; cbn [Recommended.dispatch].
  - exact Hinv.
  - intros Hact. discriminate Hact.
  - destruct arg as [a|]; [|exact Hinv].
    rewrite handleTimeout_present. cbn [fst].
    destruct (Z.leb_spec 1 (clamp_minutes (Arduino.toInt a))) as [Hpos|Hzero].
    + intros _. cbn. lia.
    + intros Hact. discriminate Hact.
  - exact Hinv.
  - exact Hinv.
  - intros Hact. discriminate Hact.
Qed.

Lemma handleClient_timer_inv (req : option Request) (now : Z) (g : Globals) :
  timer_inv g -> timer_inv (fst (Recommended.handleClient req now g)).
Proof.
  intros Hinv. destruct req as [r|]; [|exact Hinv].
  unfold Recommended.handleClient.
  pose proof (dispatch_timer_inv r now g Hinv) as H.
  destruct (Recommended.dispatch r now g) as [g' resp]. exact H.
Qed.

Lemma checks_timer_inv (tExpiry tSafety : Z) (g : Globals) :
  timer_inv g -> timer_inv (fst (Recommended.checks tExpiry tSafety g)).
Proof.
  intros Hinv. unfold Recommended.checks. cbv zeta. cbn [fst].
  repeat match goal with
         | |- context [if ?c then _ else _] => destruct c
         end;
    first [exact Hinv | intros Hact; discriminate Hact].
Qed.

(** C9.  An active timer has a positive duration: this holds of the
    globals [setup] leaves, and every operation keeps it: each route
    handler (/on, /off, /timeout with or without argument, /status,
    /api/on, /api/off) and each pass of [loop], in both sketches. *)
Theorem timer_invariant_preserved (g : Globals) (Hinv : timer_inv g) :
  (forall now pins0 : Z,
      timer_inv (Recommended.setup now pins0)
      /\ timer_inv (Optimized.globals (Optimized.setup now pins0)))
  /\ (forall (r : Request) (now : Z),
         timer_inv (fst (Recommended.dispatch r now g))
         /\ timer_inv (fst (Optimized.dispatch r now g)))
  /\ (forall (req : option Request) (tClient tExpiry tSafety : Z),
         timer_inv (after (Recommended.loop req tClient tExpiry tSafety g)))
  /\ (forall (req : option Request) (tClient currentMillis last : Z),
         timer_inv
           (Optimized.globals
              (after (Optimized.loop req tClient currentMillis
                        (Optimized.mkState g last))))).
Proof.
  split; [|split; [|split]].
  - intros now pins0. split; intros Hact; discriminate Hact.
  - intros r now. rewrite dispatch_agree.
    split; apply dispatch_timer_inv; exact Hinv.
  - intros req tClient tExpiry tSafety.
    rewrite loop_unfold. cbn [after].
    apply checks_timer_inv, handleClient_timer_inv, Hinv.
  - intros req tClient currentMillis last.
    rewrite optimized_loop_unfold. cbn [after].
    rewrite (proj1 (checks_agree currentMillis last _)).
    apply checks_timer_inv, handleClient_timer_inv, Hinv.
Qed.

(** ** The theorems at concrete inputs *)

(** Lamp on, a 30-minute timer started at 1000 ms, a pass with no request
    at 1801000 ms. *)
Lemma tick_follows_lamp_timer_table_witness :
  0 <= currentTimeout (mkGlobals 0 true 30 true 1000 0) <= 720
  /\ lamp_timer_table Recommended.isLampOn 1801000
       (mkGlobals 0 true 30 true 1000 0)
       (after (Recommended.loop None 0 1801000 1801000
                 (mkGlobals 0 true 30 true 1000 0))).
Proof.
  split.
  - cbn. lia.
  - apply (tick_follows_lamp_timer_table None 0 1801000 1801000 1801000 0
             (mkGlobals 0 true 30 true 1000 0)).
    cbn. lia.
Defined.

(** A request with minutes=abc while a 30-minute timer runs. *)
Lemma missing_or_non_numeric_minutes_witness :
  Arduino.non_numeric "abc" = true
  /\ Recommended.handleTimeout (Some "abc"%string) 5000
       (mkGlobals 0 true 30 true 1000 0)
     = (mkGlobals 0 true 0 false 1000 0, Redirect).
Proof.
  split.
  - reflexivity.
  - apply (missing_or_non_numeric_minutes "abc" 5000
             (mkGlobals 0 true 30 true 1000 0)).
    reflexivity.
Defined.

(** Lamp on, a one-minute timer started at 1000 ms, status at 31000 ms;
    the state is also the one a pass at 5000 ms leaves. *)
Lemma remaining_seconds_saturates_witness :
  0 <= currentTimeout (mkGlobals 0 true 1 true 1000 0) <= 720
  /\ usub 31000 (timeoutStart (mkGlobals 0 true 1 true 1000 0)) < 2 ^ 31
  /\ reached_for_status 5000 31000
       (after (Recommended.loop None 0 5000 5000
                 (mkGlobals 0 true 1 true 1000 0)))
  /\ usub 31000 5000 < 2 ^ 31 - 43200000
  /\ remainingSeconds
       (Recommended.statusFields 31000 (mkGlobals 0 true 1 true 1000 0))
     = spec_remainingSeconds true 31000 (mkGlobals 0 true 1 true 1000 0)
  /\ remainingSeconds
       (Recommended.statusFields 31000
          (after (Recommended.loop None 0 5000 5000
                    (mkGlobals 0 true 1 true 1000 0))))
     = 30.
Proof.
  assert (Hreached :
    reached_for_status 5000 31000
      (after (Recommended.loop None 0 5000 5000
                (mkGlobals 0 true 1 true 1000 0)))).
  { exists (after (Recommended.loop None 0 5000 5000
                     (mkGlobals 0 true 1 true 1000 0))).
    split; [left | left; reflexivity].
    exists (mkGlobals 0 true 1 true 1000 0), None, 0, 5000, 0.
    split; [cbn; lia | left; reflexivity]. }
  split; [cbn; lia|]. split; [reflexivity|].
  split; [exact Hreached|]. split; [reflexivity|]. split.
  - apply (remaining_seconds_saturates 31000
             (mkGlobals 0 true 1 true 1000 0)).
    + cbn. lia.
    + reflexivity.
  - exact (proj1 (proj2 (proj2
             (remaining_seconds_saturates 31000
                (after (Recommended.loop None 0 5000 5000
                          (mkGlobals 0 true 1 true 1000 0)))))
             5000 Hreached eq_refl)).
Defined.

(** A request with minutes=30 at 1000 ms on the freshly booted device. *)
Lemma timeout_starts_timer_witness :
  1 <= clamp_minutes (Arduino.toInt "30")
  /\ currentTimeout
       (fst (Recommended.handleTimeout (Some "30"%string) 1000
               (Recommended.setup 0 0)))
     = clamp_minutes (Arduino.toInt "30").
Proof.
  split.
  - vm_compute. discriminate.
  - apply (proj1 (proj2 (proj2 (proj2
             (timeout_starts_timer "30" 1000 (Recommended.setup 0 0)))))).
    vm_compute. discriminate.
Defined.

(** A request with minutes=-5 while a 30-minute timer runs. *)
Lemma timeout_zero_is_cancel_witness :
  clamp_minutes (Arduino.toInt "-5") = 0
  /\ timeoutActive
       (fst (Recommended.handleTimeout (Some "-5"%string) 5000
               (mkGlobals 0 true 30 true 1000 0)))
     = false.
Proof.
  split.
  - reflexivity.
  - apply (timeout_zero_is_cancel "-5" 5000 0
             (mkGlobals 0 true 30 true 1000 0)).
    reflexivity.
Defined.

(** The invariant kept by a /timeout request with minutes=45. *)
Lemma timer_invariant_preserved_witness :
  timer_inv (mkGlobals 0 true 30 true 1000 0)
  /\ timer_inv
       (fst (Recommended.dispatch (GetTimeout (Some "45"%string)) 5000
               (mkGlobals 0 true 30 true 1000 0))).
Proof.
  assert (H : timer_inv (mkGlobals 0 true 30 true 1000 0)).
  { intros _. cbn. lia. }
  split.
  - exact H.
  - apply (timer_invariant_preserved (mkGlobals 0 true 30 true 1000 0) H).
Defined.

(** A request with minutes=45 at 5000 ms while a 30-minute timer runs. *)
Lemma timeout_replaces_running_timer_witness :
  1 <= clamp_minutes (Arduino.toInt "45")
  /\ timeoutActive (mkGlobals 0 true 30 true 1000 0) = true
  /\ remainingSeconds
       (Recommended.statusFields 5000
          (fst (Recommended.handleTimeout (Some "45"%string) 5000
                  (mkGlobals 0 true 30 true 1000 0))))
     = clamp_minutes (Arduino.toInt "45") * 60.
Proof.
  split; [vm_compute; discriminate|]. split; [reflexivity|].
  apply (timeout_replaces_running_timer "45" 5000
           (mkGlobals 0 true 30 true 1000 0)).
  - vm_compute. discriminate.
  - reflexivity.
Defined.

(** ** Further properties: lamp and timer stay coupled *)

Lemma checks_coupled (tExpiry tSafety : Z) (g : Globals) :
  lamp_timer_coupled (fst (Recommended.checks tExpiry tSafety g)).
Proof.
  unfold lamp_timer_coupled, Recommended.checks. cbv zeta. cbn [fst].
  destruct (timeoutActive g && Recommended.isLampOn g
            && (umul (currentTimeout g) 60000
                <=? usub tExpiry (timeoutStart g))) eqn:Hexp.
  - cbn [timeoutActive set_timeoutActive andb]. intros H; discriminate H.
  - destruct (timeoutActive g && negb (Recommended.isLampOn g)) eqn:Hov.
    + intros H; discriminate H.
    + intros Hact. rewrite Hact in Hov. cbn [andb] in Hov.
      destruct (Recommended.isLampOn g); [reflexivity | discriminate Hov].
Qed.

(** X1.  After every pass of [loop], whatever the state before (the relay
    may have been forced from outside) and whatever request was served,
    an active timer goes with a lamp that is on.  Both sketches. *)
Theorem pass_couples_timer_to_lamp
  (req : option Request) (tClient tExpiry tSafety currentMillis last : Z)
  (g : Globals) :
  lamp_timer_coupled (after (Recommended.loop req tClient tExpiry tSafety g))
  /\ lamp_timer_coupled
       (Optimized.globals
          (after (Optimized.loop req tClient currentMillis
                    (Optimized.mkState g last)))).
Proof.
  rewrite loop_unfold, optimized_loop_unfold. cbn [after].
  rewrite (proj1 (checks_agree currentMillis last _)).
  split; apply checks_coupled.
Qed.

(** A timer still active after the checks was left alone by them and has
    not run out at the clock reading of the expiry test. *)
Lemma checks_unexpired (tExpiry tSafety : Z) (g : Globals) :
  timeoutActive (fst (Recommended.checks tExpiry tSafety g)) = true ->
  fst (Recommended.checks tExpiry tSafety g) = g
  /\ usub tExpiry (timeoutStart g) < umul (currentTimeout g) 60000.
Proof.
  unfold Recommended.checks. cbv zeta. cbn [fst].
  destruct (timeoutActive g) eqn:Ha; destruct (Recommended.isLampOn g) eqn:Hl;
    cbn [andb negb].
  - destruct (Z.leb_spec (umul (currentTimeout g) 60000)
                (usub tExpiry (timeoutStart g))) as [Hexp|Hrun].
    + cbn [timeoutActive set_timeoutActive andb]. intros H; discriminate H.
    + rewrite Ha, Hl. cbn [andb negb]. intros _. split; [reflexivity|lia].
  - rewrite Ha, Hl. cbn [andb negb]. intros H; discriminate H.
  - rewrite Ha. cbn [andb]. rewrite Ha. intros H; discriminate H.
  - rewrite Ha. cbn [andb]. rewrite Ha. intros H; discriminate H.
Qed.

(** X2.  No pass of [loop] leaves an expired timer running: for a
    duration in the handlers' range, a timer that is still active after
    the pass has, at the clock reading of that pass's expiry test, a
    wrapped elapsed time below its duration times 60000 ms.  Both
    sketches. *)
Theorem pass_leaves_no_expired_timer
  (req : option Request) (tClient tExpiry tSafety currentMillis last : Z)
  (g : Globals) (Hd : 0 <= currentTimeout g <= 720) :
  let g' := after (Recommended.loop req tClient tExpiry tSafety g) in
  let o' := Optimized.globals
              (after (Optimized.loop req tClient currentMillis
                        (Optimized.mkState g last))) in
  (timeoutActive g' = true ->
   usub tExpiry (timeoutStart g') < currentTimeout g' * 60000)
  /\ (timeoutActive o' = true ->
      usub currentMillis (timeoutStart o') < currentTimeout o' * 60000).
Proof.
  cbv zeta. rewrite loop_unfold, optimized_loop_unfold. cbn [after].
  rewrite (proj1 (checks_agree currentMillis last _)).
  pose proof (handleClient_duration_range req tClient g Hd) as Hd1.
  split; intros Hact; destruct (checks_unexpired _ _ _ Hact) as [Heq Hlt];
    rewrite Heq; rewrite umul_minutes in Hlt by exact Hd1; exact Hlt.
Qed.

Lemma pass_leaves_no_expired_timer_witness :
  0 <= currentTimeout (mkGlobals 0 true 30 true 1000 0) <= 720
  /\ usub 5000
       (timeoutStart
          (after (Recommended.loop None 0 5000 5000
                    (mkGlobals 0 true 30 true 1000 0))))
     < currentTimeout
         (after (Recommended.loop None 0 5000 5000
                   (mkGlobals 0 true 30 true 1000 0))) * 60000.
Proof.
  split.
  - cbn. lia.
  - apply (pass_leaves_no_expired_timer None 0 5000 5000 5000 0
             (mkGlobals 0 true 30 true 1000 0)).
    + cbn. lia.
    + reflexivity.
Defined.

Lemma dispatch_coupled (r : Request) (now : Z) (g : Globals) :
  lamp_timer_coupled g ->
  lamp_timer_coupled (fst (Recommended.dispatch r now g)).
Proof.
  intros Hc. destruct r as [| |arg| | |]; cbn [Recommended.dispatch].
  - intros _.
    rewrite (isLampOn_pins (Recommended.setLamp true g)) by reflexivity.
    apply isLampOn_setLamp.
  - intros H; discriminate H.
  - destruct arg as [a|]; [|exact Hc].
    destruct (Z.leb_spec 1 (clamp_minutes (Arduino.toInt a))) as [Hpos|Hzero].
    + intros _. apply (handleTimeout_start a now g Hpos).
    + rewrite handleTimeout_present.
      destruct (Z.leb_spec 1 (clamp_minutes (Arduino.toInt a))) as [Hle|_];
        [lia|].
      intros H; discriminate H.
  - exact Hc.
  - intros _.
    rewrite (isLampOn_pins (Recommended.setLamp true g)) by reflexivity.
    apply isLampOn_setLamp.
  - intros H; discriminate H.
Qed.

(** X3.  The coupling holds after [setup] and every route handler keeps
    it: if an active timer went with a lit lamp before the request, it
    does so after it.  Both sketches. *)
Theorem requests_keep_coupling (r : Request) (now : Z) (g : Globals)
  (Hc : lamp_timer_coupled g) :
  (forall boot pins0 : Z,
      lamp_timer_coupled (Recommended.setup boot pins0)
      /\ lamp_timer_coupled (Optimized.globals (Optimized.setup boot pins0)))
  /\ lamp_timer_coupled (fst (Recommended.dispatch r now g))
  /\ lamp_timer_coupled (fst (Optimized.dispatch r now g)).
Proof.
  rewrite dispatch_agree. split; [|split; apply dispatch_coupled; exact Hc].
  intros boot pins0. split; intros H; discriminate H.
Qed.

Lemma requests_keep_coupling_witness :
  lamp_timer_coupled (mkGlobals 32 false 0 false 0 0)
  /\ lamp_timer_coupled
       (fst (Recommended.dispatch (GetTimeout (Some "30"%string)) 1000
               (mkGlobals 32 false 0 false 0 0))).
Proof.
  assert (H : lamp_timer_coupled (mkGlobals 32 false 0 false 0 0)).
  { intros Hact. discriminate Hact. }
  split.
  - exact H.
  - apply (requests_keep_coupling (GetTimeout (Some "30"%string)) 1000
             (mkGlobals 32 false 0 false 0 0) H).
Defined.

(** ** Further properties: the legacy mirror of the relay *)

Lemma dispatch_relay_mirror (r : Request) (now : Z) (g : Globals) :
  relay_mirror g -> relay_mirror (fst (Recommended.dispatch r now g)).
Proof.
  unfold relay_mirror. intros Hm.
  destruct r as [| |arg| | |]; cbn [Recommended.dispatch].
  - rewrite (isLampOn_pins (Recommended.setLamp true g)) by reflexivity.
    rewrite isLampOn_setLamp. reflexivity.
  - rewrite (isLampOn_pins (Recommended.setLamp false g)) by reflexivity.
    rewrite isLampOn_setLamp. reflexivity.
  - destruct arg as [a|]; [|exact Hm].
    rewrite handleTimeout_present. cbn [fst].
    destruct (1 <=? clamp_minutes (Arduino.toInt a)); [|exact Hm].
    destruct (Recommended.isLampOn g) eqn:Hl; cbn [negb].
    + rewrite (isLampOn_pins g) by reflexivity. rewrite Hl. exact Hm.
    + rewrite (isLampOn_pins (Recommended.setLamp true g)) by reflexivity.
      rewrite isLampOn_setLamp. reflexivity.
  - exact Hm.
  - rewrite (isLampOn_pins (Recommended.setLamp true g)) by reflexivity.
    rewrite isLampOn_setLamp. reflexivity.
  - rewrite (isLampOn_pins (Recommended.setLamp false g)) by reflexivity.
    rewrite isLampOn_setLamp. reflexivity.
Qed.

Lemma handleClient_relay_mirror (req : option Request) (now : Z)
      (g : Globals) :
  relay_mirror g -> relay_mirror (fst (Recommended.handleClient req now g)).
Proof.
  intros Hm. destruct req as [r|]; [|exact Hm].
  unfold Recommended.handleClient.
  pose proof (dispatch_relay_mirror r now g Hm) as H.
  destruct (Recommended.dispatch r now g) as [g' resp]. exact H.
Qed.

Lemma checks_relay_mirror (tExpiry tSafety : Z) (g : Globals) :
  relay_mirror g -> relay_mirror (fst (Recommended.checks tExpiry tSafety g)).
Proof.
  unfold relay_mirror. intros Hm.
  unfold Recommended.checks. cbv zeta. cbn [fst].
  destruct (timeoutActive g && Recommended.isLampOn g
            && (umul (currentTimeout g) 60000
                <=? usub tExpiry (timeoutStart g))).
  - cbn [timeoutActive set_timeoutActive andb].
    rewrite (isLampOn_pins (Recommended.setLamp false g)) by reflexivity.
    rewrite isLampOn_setLamp. reflexivity.
  - destruct (timeoutActive g && negb (Recommended.isLampOn g)); exact Hm.
Qed.

(** X4.  The legacy variable [relayState] stays in step with the relay:
    it equals the lamp reading after [setup], and every route handler
    and every pass of [loop] that finds the two equal leaves them equal.
    Both sketches. *)
Theorem relay_mirror_kept (g : Globals) (Hm : relay_mirror g) :
  (forall boot pins0 : Z,
      relay_mirror (Recommended.setup boot pins0)
      /\ relay_mirror (Optimized.globals (Optimized.setup boot pins0)))
  /\ (forall (r : Request) (now : Z),
         relay_mirror (fst (Recommended.dispatch r now g))
         /\ relay_mirror (fst (Optimized.dispatch r now g)))
  /\ (forall (req : option Request) (tClient tExpiry tSafety : Z),
         relay_mirror (after (Recommended.loop req tClient tExpiry tSafety g)))
  /\ (forall (req : option Request) (tClient currentMillis last : Z),
         relay_mirror
           (Optimized.globals
              (after (Optimized.loop req tClient currentMillis
                        (Optimized.mkState g last))))).
Proof.
  split; [|split; [|split]].
  - intros boot pins0.
    assert (H : relay_mirror (Recommended.setup boot pins0)).
    { unfold relay_mirror, Recommended.setup, Recommended.isLampOn,
        GPIO.digitalRead, GPIO.digitalWrite, Recommended.relayPin.
      cbn [pins relayState].
      rewrite testbit_write_GPOS by lia. reflexivity. }
    split; exact H.
  - intros r now. rewrite dispatch_agree.
    split; apply dispatch_relay_mirror; exact Hm.
  - intros req tClient tExpiry tSafety.
    rewrite loop_unfold. cbn [after].
    apply checks_relay_mirror, handleClient_relay_mirror, Hm.
  - intros req tClient currentMillis last.
    rewrite optimized_loop_unfold. cbn [after].
    rewrite (proj1 (checks_agree currentMillis last _)).
    apply checks_relay_mirror, handleClient_relay_mirror, Hm.
Qed.

Lemma relay_mirror_kept_witness :
  relay_mirror (mkGlobals 32 false 0 false 0 0)
  /\ relay_mirror
       (after (Recommended.loop (Some GetOn) 1000 1000 1000
                 (mkGlobals 32 false 0 false 0 0))).
Proof.
  assert (H : relay_mirror (mkGlobals 32 false 0 false 0 0)) by reflexivity.
  split.
  - exact H.
  - apply (relay_mirror_kept (mkGlobals 32 false 0 false 0 0) H).
Defined.

(** ** Further properties: only the relay pin is driven *)

Lemma testbit_write_GPOS_other (n pins : Z) :
  n <> 5 ->
  Z.testbit (GPIO.write_GPOS (Z.shiftl 1 5) pins) n = Z.testbit pins n.
Proof.
  intros Hn. unfold GPIO.write_GPOS. rewrite Z.lor_spec.
  change (Z.shiftl 1 5) with (2 ^ 5).
  rewrite Z.pow2_bits_eqb by lia.
  destruct (Z.eqb_spec 5 n); [lia | apply orb_false_r].
Qed.

Lemma testbit_write_GPOC_other (n pins : Z) :
  n <> 5 ->
  Z.testbit (GPIO.write_GPOC (Z.shiftl 1 5) pins) n = Z.testbit pins n.
Proof.
  intros Hn. unfold GPIO.write_GPOC.
  destruct (Z.ltb_spec n 0) as [Hneg|Hpos].
  - rewrite !Z.testbit_neg_r by lia. reflexivity.
  - rewrite Z.land_spec, Z.lnot_spec by lia.
    change (Z.shiftl 1 5) with (2 ^ 5).
    rewrite Z.pow2_bits_eqb by lia.
    destruct (Z.eqb_spec 5 n); [lia | apply andb_true_r].
Qed.

Lemma setLamp_other_pins (b : bool) (n : Z) (g : Globals) :
  n <> 5 ->
  Z.testbit (pins (Recommended.setLamp b g)) n = Z.testbit (pins g) n.
Proof.
  intros Hn. destruct b.
  - apply testbit_write_GPOC_other, Hn.
  - apply testbit_write_GPOS_other, Hn.
Qed.

Lemma dispatch_other_pins (n : Z) (r : Request) (now : Z) (g : Globals) :
  n <> 5 ->
  Z.testbit (pins (fst (Recommended.dispatch r now g))) n
  = Z.testbit (pins g) n.
Proof.
  intros Hn. destruct r as [| |arg| | |]; cbn [Recommended.dispatch];
    try reflexivity;
    try (apply (setLamp_other_pins true n g Hn));
    try (apply (setLamp_other_pins false n g Hn)).
  destruct arg as [a|]; [|reflexivity].
  rewrite handleTimeout_present. cbn [fst].
  destruct (1 <=? clamp_minutes (Arduino.toInt a)); [|reflexivity].
  destruct (Recommended.isLampOn g); cbn [negb]; [reflexivity|].
  apply (setLamp_other_pins true n g Hn).
Qed.

Lemma handleClient_other_pins (n : Z) (req : option Request) (now : Z)
      (g : Globals) :
  n <> 5 ->
  Z.testbit (pins (fst (Recommended.handleClient req now g))) n
  = Z.testbit (pins g) n.
Proof.
  intros Hn. destruct req as [r|]; [|reflexivity].
  unfold Recommended.handleClient.
  pose proof (dispatch_other_pins n r now g Hn) as H.
  destruct (Recommended.dispatch r now g) as [g' resp]. exact H.
Qed.

Lemma checks_other_pins (n : Z) (tExpiry tSafety : Z) (g : Globals) :
  n <> 5 ->
  Z.testbit (pins (fst (Recommended.checks tExpiry tSafety g))) n
  = Z.testbit (pins g) n.
Proof.
  intros Hn. unfold Recommended.checks. cbv zeta. cbn [fst].
  destruct (timeoutActive g && Recommended.isLampOn g
            && (umul (currentTimeout g) 60000
                <=? usub tExpiry (timeoutStart g))).
  - cbn [timeoutActive set_timeoutActive andb].
    apply (setLamp_other_pins false n g Hn).
  - destruct (timeoutActive g && negb (Recommended.isLampOn g)); reflexivity.
Qed.

(** X5.  The sketches drive GPIO5 and nothing else: no route handler and
    no pass of [loop] changes the level of any other pin, and [setup]
    changes none but GPIO5 either.  Both sketches. *)
Theorem only_relay_pin_driven (n : Z) (Hn : n <> 5)
  (req : option Request) (r : Request)
  (now tClient tExpiry tSafety currentMillis last pins0 : Z) (g : Globals) :
  Z.testbit (pins (Recommended.setup now pins0)) n = Z.testbit pins0 n
  /\ Z.testbit (pins (Optimized.globals (Optimized.setup now pins0))) n
     = Z.testbit pins0 n
  /\ Z.testbit (pins (fst (Recommended.dispatch r now g))) n
     = Z.testbit (pins g) n
  /\ Z.testbit (pins (fst (Optimized.dispatch r now g))) n
     = Z.testbit (pins g) n
  /\ Z.testbit
       (pins (after (Recommended.loop req tClient tExpiry tSafety g))) n
     = Z.testbit (pins g) n
  /\ Z.testbit
       (pins (Optimized.globals
                (after (Optimized.loop req tClient currentMillis
                          (Optimized.mkState g last))))) n
     = Z.testbit (pins g) n.
Proof.
  rewrite dispatch_agree, loop_unfold, optimized_loop_unfold. cbn [after].
  rewrite (proj1 (checks_agree currentMillis last _)).
  rewrite !checks_other_pins, !handleClient_other_pins by exact Hn.
  rewrite dispatch_other_pins by exact Hn.
  repeat split; apply testbit_write_GPOS_other; exact Hn.
Qed.

Lemma only_relay_pin_driven_witness :
  4 <> 5
  /\ Z.testbit
       (pins (fst (Recommended.dispatch GetOff 0
                     (mkGlobals 16 true 0 false 0 0)))) 4
     = Z.testbit (pins (mkGlobals 16 true 0 false 0 0)) 4.
Proof.
  split.
  - discriminate.
  - apply (only_relay_pin_driven 4 ltac:(discriminate) None GetOff
             0 0 0 0 0 0 0 (mkGlobals 16 true 0 false 0 0)).
Defined.

(** ** Further properties: repeated requests and repeated passes *)

Lemma write_GPOS_twice (mask pins : Z) :
  GPIO.write_GPOS mask (GPIO.write_GPOS mask pins) = GPIO.write_GPOS mask pins.
Proof.
  unfold GPIO.write_GPOS. rewrite <- Z.lor_assoc, Z.lor_diag. reflexivity.
Qed.

Lemma write_GPOC_twice (mask pins : Z) :
  GPIO.write_GPOC mask (GPIO.write_GPOC mask pins) = GPIO.write_GPOC mask pins.
Proof.
  unfold GPIO.write_GPOC. rewrite <- Z.land_assoc, Z.land_diag. reflexivity.
Qed.

Lemma handleTimeout_absorbs (arg : option string) (now now' : Z)
      (g : Globals) :
  fst (Recommended.handleTimeout arg now'
         (fst (Recommended.handleTimeout arg now g)))
  = fst (Recommended.handleTimeout arg now' g).
Proof.
  destruct arg as [a|]; [|reflexivity].
  rewrite !handleTimeout_present.
  destruct (1 <=? clamp_minutes (Arduino.toInt a)); cbn [fst];
    [|reflexivity].
  destruct (Recommended.isLampOn g) eqn:Hl; cbn [negb].
  - rewrite (isLampOn_pins g) by reflexivity. rewrite Hl. reflexivity.
  - rewrite (isLampOn_pins (Recommended.setLamp true g)) by reflexivity.
    rewrite isLampOn_setLamp. reflexivity.
Qed.

(** X6.  A request repeated is absorbed: serving the same request twice
    in a row leaves the globals that serving it once, at the clock
    reading of the second time, would leave.  In particular /on, /off,
    /api/on, /api/off and a /timeout with the same argument can be
    retried without a second effect on the relay, and a repeated start
    only moves the start stamp.  Both sketches. *)
Theorem repeated_request_absorbed (r : Request) (now now' : Z) (g : Globals) :
  fst (Recommended.dispatch r now' (fst (Recommended.dispatch r now g)))
  = fst (Recommended.dispatch r now' g)
  /\ fst (Optimized.dispatch r now' (fst (Optimized.dispatch r now g)))
     = fst (Optimized.dispatch r now' g).
Proof.
  rewrite !dispatch_agree.
  assert (H : fst (Recommended.dispatch r now'
                     (fst (Recommended.dispatch r now g)))
              = fst (Recommended.dispatch r now' g)).
  { destruct r as [| |arg| | |]; cbn [Recommended.dispatch];
      try reflexivity; try apply handleTimeout_absorbs;
      destruct g as [p rs ct ta ts ms];
      unfold Recommended.handleOn, Recommended.handleOff,
        Recommended.handleOnApi, Recommended.handleOffApi,
        Recommended.setLamp, GPIO.digitalWrite, set_pins, set_relayState,
        set_timeoutActive, set_currentTimeout;
      cbn [fst pins relayState currentTimeout timeoutActive timeoutStart
             moduleStartTime];
      rewrite ?write_GPOC_twice, ?write_GPOS_twice; reflexivity. }
  split; exact H.
Qed.

Lemma checks_inactive (tExpiry tSafety : Z) (g : Globals) :
  timeoutActive g = false ->
  fst (Recommended.checks tExpiry tSafety g) = g.
Proof.
  intros Ha. unfold Recommended.checks. cbv zeta. cbn [fst].
  rewrite Ha. cbn [andb]. rewrite Ha. reflexivity.
Qed.

Lemma checks_twice (tExpiry tSafety : Z) (g : Globals) :
  fst (Recommended.checks tExpiry tSafety
         (fst (Recommended.checks tExpiry tSafety g)))
  = fst (Recommended.checks tExpiry tSafety g).
Proof.
  destruct (timeoutActive (fst (Recommended.checks tExpiry tSafety g)))
    eqn:Ha.
  - destruct (checks_unexpired tExpiry tSafety g Ha) as [Heq _].
    rewrite Heq. exact Heq.
  - apply checks_inactive, Ha.
Qed.

(** X7.  A pass of [loop] settles the state for its clock reading: a
    second pass with no request pending and the same clock readings
    changes nothing, neither the globals nor, in the optimized sketch,
    [lastSafetyCheck]. *)
Theorem pass_settles_state
  (req : option Request) (tClient tExpiry tSafety currentMillis last : Z)
  (g : Globals) :
  after (Recommended.loop None tClient tExpiry tSafety
           (after (Recommended.loop req tClient tExpiry tSafety g)))
  = after (Recommended.loop req tClient tExpiry tSafety g)
  /\ after (Optimized.loop None tClient currentMillis
              (after (Optimized.loop req tClient currentMillis
                        (Optimized.mkState g last))))
     = after (Optimized.loop req tClient currentMillis
                (Optimized.mkState g last)).
Proof.
  split.
  - rewrite (loop_unfold None), (loop_unfold req). cbn [after].
    cbn [Recommended.handleClient fst]. apply checks_twice.
  - rewrite (optimized_loop_unfold req). cbn [after].
    set (g1 := fst (Recommended.handleClient req tClient g)).
    destruct (checks_agree currentMillis last g1) as [Hg _].
    assert (Hlast :
      Optimized.lastSafetyCheck
        (fst (Optimized.checks currentMillis (Optimized.mkState g1 last)))
      = if Optimized.SAFETY_CHECK_INTERVAL <=? usub currentMillis last
        then currentMillis else last).
    { unfold Optimized.checks. cbv zeta.
      cbn [Optimized.globals Optimized.lastSafetyCheck].
      destruct (Optimized.SAFETY_CHECK_INTERVAL <=? usub currentMillis last);
        reflexivity. }
    destruct (fst (Optimized.checks currentMillis (Optimized.mkState g1 last)))
      as [g2 last2] eqn:Hs.
    cbn [Optimized.globals Optimized.lastSafetyCheck] in Hg, Hlast.
    rewrite (optimized_loop_unfold None). cbn [after].
    cbn [Recommended.handleClient fst].
    destruct (checks_agree currentMillis last2 g2) as [Hg2 _].
    assert (Hlast2 :
      Optimized.lastSafetyCheck
        (fst (Optimized.checks currentMillis (Optimized.mkState g2 last2)))
      = last2).
    { unfold Optimized.checks. cbv zeta.
      cbn [Optimized.globals Optimized.lastSafetyCheck].
      destruct (Z.leb_spec Optimized.SAFETY_CHECK_INTERVAL
                  (usub currentMillis last2)) as [Hdue|Hnot];
        cbn [fst Optimized.lastSafetyCheck]; [|reflexivity].
      rewrite Hlast in Hdue |- *.
      destruct (Z.leb_spec Optimized.SAFETY_CHECK_INTERVAL
                  (usub currentMillis last)) as [Hdue1|Hnot1].
      - reflexivity.
      - lia. }
    destruct (fst (Optimized.checks currentMillis (Optimized.mkState g2 last2)))
      as [g3 last3] eqn:Hs3.
    cbn [Optimized.globals Optimized.lastSafetyCheck] in Hg2, Hlast2.
    rewrite Hg2, Hlast2, Hg. rewrite checks_twice. reflexivity.
Qed.

(** ** Further properties: a timer from start to expiry *)

(** X8.  A timer started by /timeout runs its full length and no longer.
    Let the request, with clamped value N at least 1, be served at clock
    reading [t0].  A later pass with no request pending whose wrapped
    clock difference from [t0] is below N times 60000 ms changes
    nothing: the lamp stays on and the timer active.  A pass whose
    difference is N times 60000 ms or more switches the lamp off and
    clears the timer.  Both sketches. *)
Theorem started_timer_runs_full_length
  (a : string) (t0 tClient t tSafety last : Z) (g : Globals)
  (HN : 1 <= clamp_minutes (Arduino.toInt a)) :
  let N := clamp_minutes (Arduino.toInt a) in
  let g0 := fst (Recommended.handleTimeout (Some a) t0 g) in
  let g1 := after (Recommended.loop None tClient t tSafety g0) in
  let o1 := Optimized.globals
              (after (Optimized.loop None tClient t
                        (Optimized.mkState g0 last))) in
  Recommended.isLampOn g0 = true
  /\ timeoutActive g0 = true
  /\ (usub t t0 < N * 60000 -> g1 = g0 /\ o1 = g0)
  /\ (N * 60000 <= usub t t0 ->
      Recommended.isLampOn g1 = false /\ timeoutActive g1 = false
      /\ Recommended.isLampOn o1 = false /\ timeoutActive o1 = false).
Proof.
  cbv zeta.
  destruct (handleTimeout_start a t0 g HN)
    as (Hact & Hdur & Hstart & Hlamp & _).
  cbv zeta in Hact, Hdur, Hstart, Hlamp.
  pose proof (clamp_minutes_range (Arduino.toInt a)) as Hrange.
  rewrite loop_unfold, optimized_loop_unfold. cbn [after].
  cbn [Recommended.handleClient fst].
  rewrite (proj1 (checks_agree t last _)).
  set (g0 := fst (Recommended.handleTimeout (Some a) t0 g)) in *.
  assert (Hd : 0 <= currentTimeout g0 <= 720) by (rewrite Hdur; exact Hrange).
  destruct (checks_table t t g0 Hd) as (Hexp & _ & Hrun & _).
  destruct (checks_table t tSafety g0 Hd) as (Hexp' & _ & Hrun' & _).
  rewrite Hdur, Hstart in Hexp, Hrun, Hexp', Hrun'.
  split; [exact Hlamp|]. split; [exact Hact|]. split.
  - intros Hlt. split; [apply Hrun' | apply Hrun]; assumption.
  - intros Hge.
    destruct (Hexp Hact Hlamp Hge) as (_ & Hoff & _ & Hina & _).
    destruct (Hexp' Hact Hlamp Hge) as (_ & Hoff' & _ & Hina' & _).
    repeat split; assumption.
Qed.

Lemma started_timer_runs_full_length_witness :
  1 <= clamp_minutes (Arduino.toInt "30")
  /\ Recommended.isLampOn
       (after (Recommended.loop None 0 1801000 1801000
                 (fst (Recommended.handleTimeout (Some "30"%string) 1000
                         (Recommended.setup 0 0)))))
     = false.
Proof.
  split.
  - vm_compute. discriminate.
  - apply (started_timer_runs_full_length "30" 1000 0 1801000 1801000 0
             (Recommended.setup 0 0)).
    + vm_compute. discriminate.
    + vm_compute. discriminate.
Defined.

(** ** Further properties: the remaining time *)

Lemma to_long_range (z : Z) : - 2 ^ 31 <= to_long z < 2 ^ 31.
Proof.
  unfold to_long, ULONG_MOD.
  pose proof (Z.mod_pos_bound (z + 2 ^ 31) (2 ^ 32)). lia.
Qed.

Lemma remaining_value_bound (d e : Z) :
  0 <= to_ulong
         (Z.quot
            (let r := lsub (to_long (umul d 60000)) (to_long e) in
             if r <? 0 then 0 else r)
            1000)
  <= 2147483.
Proof.
  cbv zeta. unfold lsub.
  pose proof (to_long_range (to_long (umul d 60000) - to_long e)) as Hr.
  set (r := to_long (to_long (umul d 60000) - to_long e)) in *.
  assert (Hq : 0 <= Z.quot (if r <? 0 then 0 else r) 1000 <= 2147483).
  { destruct (Z.ltb_spec r 0).
    - cbn. lia.
    - rewrite Z.quot_div_nonneg by lia. split.
      + apply Z.div_pos; lia.
      + assert (r / 1000 < 2147484)
          by (apply Z.div_lt_upper_bound; lia).
        lia. }
  rewrite to_ulong_small by lia. exact Hq.
Qed.

(** X9.  The remaining seconds of a status report are never negative and
    never above 2147483, in any state and at any clock reading; for a
    duration in the handlers' range and a wrapped elapsed time below
    2^31 ms they are at most the duration in seconds, so at most 43200.
    Both sketches. *)
Theorem remaining_seconds_bounded (now : Z) (g : Globals) :
  0 <= remainingSeconds (Recommended.statusFields now g) <= 2147483
  /\ 0 <= remainingSeconds (Optimized.statusFields now g) <= 2147483
  /\ (0 <= currentTimeout g <= 720 ->
      usub now (timeoutStart g) < 2 ^ 31 ->
      remainingSeconds (Recommended.statusFields now g)
      <= currentTimeout g * 60 <= 43200
      /\ remainingSeconds (Optimized.statusFields now g)
         <= currentTimeout g * 60 <= 43200).
Proof.
  rewrite statusFields_agree.
  assert (Hb : 0 <= remainingSeconds (Recommended.statusFields now g)
               <= 2147483).
  { unfold Recommended.statusFields. cbn [remainingSeconds].
    destruct (timeoutActive g && Recommended.isLampOn g); [|lia].
    apply remaining_value_bound. }
  split; [exact Hb|]. split; [exact Hb|].
  intros Hd He.
  rewrite statusFields_remaining by assumption.
  unfold spec_remainingSeconds.
  pose proof (usub_range now (timeoutStart g)) as Hr.
  assert (H : (if timeoutActive g && Recommended.isLampOn g
               then Z.max 0 (currentTimeout g * 60000
                             - usub now (timeoutStart g)) / 1000
               else 0) <= currentTimeout g * 60).
  { destruct (timeoutActive g && Recommended.isLampOn g); [|lia].
    apply Z.div_le_upper_bound; lia. }
  lia.
Qed.

(** X10.  The countdown never runs backwards: for a duration in the
    handlers' range, of two status reports on the same state the one
    with the larger wrapped elapsed time (both below 2^31 ms) shows no
    more remaining seconds than the other.  Both sketches. *)
Theorem remaining_seconds_monotone (t1 t2 : Z) (g : Globals)
  (Hd : 0 <= currentTimeout g <= 720)
  (Hle : usub t1 (timeoutStart g) <= usub t2 (timeoutStart g))
  (He : usub t2 (timeoutStart g) < 2 ^ 31) :
  remainingSeconds (Recommended.statusFields t2 g)
  <= remainingSeconds (Recommended.statusFields t1 g)
  /\ remainingSeconds (Optimized.statusFields t2 g)
     <= remainingSeconds (Optimized.statusFields t1 g).
Proof.
  rewrite !statusFields_agree.
  rewrite !statusFields_remaining by lia.
  unfold spec_remainingSeconds.
  assert (H : (if timeoutActive g && Recommended.isLampOn g
               then Z.max 0 (currentTimeout g * 60000
                             - usub t2 (timeoutStart g)) / 1000
               else 0)
              <= (if timeoutActive g && Recommended.isLampOn g
                  then Z.max 0 (currentTimeout g * 60000
                                - usub t1 (timeoutStart g)) / 1000
                  else 0)).
  { destruct (timeoutActive g && Recommended.isLampOn g); [|lia].
    apply Z.div_le_mono; lia. }
  split; exact H.
Qed.

Lemma remaining_seconds_monotone_witness :
  0 <= currentTimeout (mkGlobals 0 true 1 true 1000 0) <= 720
  /\ usub 11000 (timeoutStart (mkGlobals 0 true 1 true 1000 0))
     <= usub 31000 (timeoutStart (mkGlobals 0 true 1 true 1000 0))
  /\ usub 31000 (timeoutStart (mkGlobals 0 true 1 true 1000 0)) < 2 ^ 31
  /\ remainingSeconds
       (Recommended.statusFields 31000 (mkGlobals 0 true 1 true 1000 0))
     <= remainingSeconds
          (Recommended.statusFields 11000 (mkGlobals 0 true 1 true 1000 0)).
Proof.
  split; [cbn; lia|]. split; [vm_compute; discriminate|].
  split; [reflexivity|].
  apply (remaining_seconds_monotone 11000 31000
           (mkGlobals 0 true 1 true 1000 0)).
  - cbn. lia.
  - vm_compute. discriminate.
  - reflexivity.
Defined.

(** X11.  The status report and the expiry test agree: for a duration in
    the handlers' range and a wrapped elapsed time below 2^31 ms, if a
    status report at some clock reading shows time remaining, then a
    pass with no request pending whose expiry test uses that same clock
    reading leaves the lamp on and the timer running, indeed changes
    nothing.  Both sketches. *)
Theorem time_remaining_means_no_switch_off
  (now tClient tSafety last : Z) (g : Globals)
  (Hd : 0 <= currentTimeout g <= 720)
  (He : usub now (timeoutStart g) < 2 ^ 31)
  (Hrem : 0 < remainingSeconds (Recommended.statusFields now g)) :
  Recommended.isLampOn g = true
  /\ timeoutActive g = true
  /\ after (Recommended.loop None tClient now tSafety g) = g
  /\ Optimized.globals
       (after (Optimized.loop None tClient now (Optimized.mkState g last)))
     = g.
Proof.
  rewrite statusFields_remaining in Hrem by assumption.
  unfold spec_remainingSeconds in Hrem.
  destruct (timeoutActive g) eqn:Ha; [|cbn in Hrem; lia].
  destruct (Recommended.isLampOn g) eqn:Hl; [|cbn in Hrem; lia].
  cbn [andb] in Hrem.
  assert (Hlt : usub now (timeoutStart g) < currentTimeout g * 60000).
  { destruct (Z.lt_ge_cases (usub now (timeoutStart g))
                (currentTimeout g * 60000)) as [Hlt|Hge]; [exact Hlt|].
    rewrite Z.max_l in Hrem by lia. cbn in Hrem. lia. }
  rewrite loop_unfold, optimized_loop_unfold. cbn [after].
  cbn [Recommended.handleClient fst].
  rewrite (proj1 (checks_agree now last _)).
  destruct (checks_table now now g Hd) as (_ & _ & Hrun & _).
  destruct (checks_table now tSafety g Hd) as (_ & _ & Hrun' & _).
  repeat split; [apply Hrun' | apply Hrun]; assumption.
Qed.

Lemma time_remaining_means_no_switch_off_witness :
  0 <= currentTimeout (mkGlobals 0 true 1 true 1000 0) <= 720
  /\ usub 31000 (timeoutStart (mkGlobals 0 true 1 true 1000 0)) < 2 ^ 31
  /\ 0 < remainingSeconds
           (Recommended.statusFields 31000 (mkGlobals 0 true 1 true 1000 0))
  /\ after (Recommended.loop None 0 31000 31000
              (mkGlobals 0 true 1 true 1000 0))
     = mkGlobals 0 true 1 true 1000 0.
Proof.
  split; [cbn; lia|]. split; [reflexivity|]. split; [reflexivity|].
  apply (time_remaining_means_no_switch_off 31000 0 31000 0
           (mkGlobals 0 true 1 true 1000 0)).
  - cbn. lia.
  - reflexivity.
  - reflexivity.
Defined.

(** ** Further properties: numbers and the status text *)

Lemma length_append (s t : string) :
  String.length (s ++ t) = (String.length s + String.length t)%nat.
Proof. induction s as [|c s IH]; cbn; [reflexivity | rewrite IH; reflexivity]. Qed.

Lemma push_digits_length (fuel : nat) :
  forall (k : nat) (v : Z) (temp : string),
    0 <= v < 10 ^ Z.of_nat k ->
    (String.length (Arduino.push_digits fuel v temp)
     <= String.length temp + k)%nat.
Proof.
  induction fuel as [|fuel IH]; intros k v temp Hv.
  - cbn. lia.
  - rewrite push_digits_step.
    destruct (Z.gtb_spec v 0) as [Hpos|Hzero]; [|lia].
    destruct k as [|k]; [cbn in Hv; lia|].
    rewrite Nat2Z.inj_succ, Z.pow_succ_r in Hv by lia.
    specialize (IH k (v / 10)
                  (String (ascii_of_nat (Z.to_nat (48 + v mod 10))) temp)).
    cbn [String.length] in IH.
    assert (Hq : 0 <= v / 10 < 10 ^ Z.of_nat k).
    { split; [apply Z.div_pos; lia | apply Z.div_lt_upper_bound; lia]. }
    specialize (IH Hq). lia.
Qed.

Lemma push_digits_all_digits (fuel : nat) :
  forall (v : Z) (temp : string),
    all_digits temp = true ->
    all_digits (Arduino.push_digits fuel v temp) = true.
Proof.
  induction fuel as [|fuel IH]; intros v temp Ht.
  - exact Ht.
  - rewrite push_digits_step. destruct (v >? 0); [|exact Ht].
    apply IH. cbn [all_digits].
    rewrite digit_value_digit by (apply Z.mod_pos_bound; lia).
    exact Ht.
Qed.

Lemma String_of_ulong_all_digits (v : Z) :
  all_digits (Arduino.String_of_ulong v) = true.
Proof.
  unfold Arduino.String_of_ulong.
  destruct (v =? 0); [reflexivity|].
  apply push_digits_all_digits. reflexivity.
Qed.

Lemma String_of_ulong_length (k : nat) (v : Z) :
  (1 <= k)%nat -> 0 <= v < 10 ^ Z.of_nat k ->
  (1 <= String.length (Arduino.String_of_ulong v) <= k)%nat.
Proof.
  intros Hk Hv. unfold Arduino.String_of_ulong.
  destruct (Z.eqb_spec v 0) as [Hz|Hnz]; [cbn; lia|].
  split.
  - pose proof (String_of_ulong_starts_with_digit v ltac:(lia)) as Hs.
    unfold Arduino.String_of_ulong in Hs.
    destruct (Z.eqb_spec v 0); [contradiction|].
    destruct (Arduino.push_digits 16 v EmptyString); [discriminate|].
    cbn. lia.
  - pose proof (push_digits_length 16 k v EmptyString Hv) as H.
    cbn [String.length] in H. lia.
Qed.

Lemma read_digits_String_of_ulong (v : Z) :
  0 <= v < 10 ^ 16 ->
  Arduino.read_digits 0 (Arduino.String_of_ulong v) = v.
Proof.
  intros Hv. unfold Arduino.String_of_ulong.
  destruct (Z.eqb_spec v 0) as [Hz|Hnz]; [subst v; reflexivity|].
  rewrite read_digits_push_digits by (cbn; lia). reflexivity.
Qed.

(** X12.  [fastItoa] is a faithful decimal writer on the whole range of
    [unsigned long]: the text has between 1 and 10 characters, all of
    them digits, so the 16-slot digit stack and the 64-byte buffer it is
    copied to are never exceeded; reading the digits back gives the
    value, and [toInt] reads the text back as the value capped at the
    largest [long]; the text is the one the recommended sketch gets from
    [String(value)]. *)
Theorem fastItoa_faithful (v : Z) (Hv : 0 <= v < 2 ^ 32) :
  (1 <= String.length (Optimized.fastItoa v) <= 10)%nat
  /\ all_digits (Optimized.fastItoa v) = true
  /\ Arduino.read_digits 0 (Optimized.fastItoa v) = v
  /\ Arduino.toInt (Optimized.fastItoa v) = Z.min LONG_MAX v
  /\ Optimized.fastItoa v = Arduino.String_of_ulong v.
Proof.
  rewrite fastItoa_agree.
  split; [apply String_of_ulong_length; cbn; lia|].
  split; [apply String_of_ulong_all_digits|].
  split; [apply read_digits_String_of_ulong; lia|].
  split; [|reflexivity].
  unfold Arduino.toInt.
  rewrite atol_starts_with_digit
    by (apply String_of_ulong_starts_with_digit; lia).
  rewrite read_digits_String_of_ulong by lia. reflexivity.
Qed.

Lemma fastItoa_faithful_witness :
  0 <= 4294967295 < 2 ^ 32
  /\ Arduino.read_digits 0 (Optimized.fastItoa 4294967295) = 4294967295.
Proof.
  split.
  - lia.
  - apply (fastItoa_faithful 4294967295). lia.
Defined.

Lemma status_json_length (st : Status) (number : string) :
  String.length (status_json st number)
  = (44 + String.length (json_bool (on st))
     + String.length (json_bool (timerActive st))
     + String.length number)%nat.
Proof.
  destruct st as [o a r]. unfold status_json. cbn [on timerActive].
  rewrite !length_append.
  destruct o, a; cbn; lia.
Qed.

(** X13.  The status text always fits its buffer: whatever the state and
    the clock reading, the JSON text of a status report has at most 61
    characters, far below the 256 bytes of [jsonBuffer].  Both
    sketches. *)
Theorem status_json_fits_buffer (now : Z) (g : Globals) :
  (String.length (Recommended.buildStatusJson now g) <= 61)%nat
  /\ (String.length (Optimized.buildStatusJson now g) + 1 <= 256)%nat.
Proof.
  rewrite buildStatusJson_agree.
  assert (H : (String.length (Recommended.buildStatusJson now g) <= 61)%nat).
  { unfold Recommended.buildStatusJson. cbv zeta.
    rewrite status_json_length.
    pose proof (remaining_value_bound (currentTimeout g)
                  (usub now (timeoutStart g))) as Hb.
    assert (Hr : 0 <= remainingSeconds (Recommended.statusFields now g)
                 < 10 ^ Z.of_nat 7).
    { change (10 ^ Z.of_nat 7) with 10000000.
      unfold Recommended.statusFields. cbn [remainingSeconds].
      cbv zeta in Hb |- *.
      destruct (timeoutActive g && Recommended.isLampOn g); lia. }
    pose proof (String_of_ulong_length 7 _ ltac:(lia) Hr) as Hn.
    destruct (on (Recommended.statusFields now g)),
      (timerActive (Recommended.statusFields now g));
      cbn [json_bool String.length]; lia. }
  split; [exact H | lia].
Qed.

Lemma index_cons_none (pattern : string) (c : ascii) (text : string) :
  String.prefix pattern (String c text) = false ->
  String.index 0 pattern text = None ->
  String.index 0 pattern (String c text) = None.
Proof.
  intros Hp Hi. cbn [String.index]. rewrite Hp, Hi. reflexivity.
Qed.

Lemma index_digits_none (c : ascii) (pattern : string) (number : string) :
  Arduino.digit_value c = None -> c <> "}"%char ->
  all_digits number = true ->
  String.index 0 (String c pattern) (number ++ "}") = None.
Proof.
  intros Hc Hbrace. induction number as [|d number IH]; intros Hn.
  - cbn [append]. apply index_cons_none; [|reflexivity].
    cbn. destruct (ascii_dec c "}"); [contradiction | reflexivity].
  - cbn [all_digits] in Hn.
    destruct (Arduino.digit_value d) eqn:Hd; [|discriminate].
    cbn [append]. apply index_cons_none; [|apply IH; exact Hn].
    cbn. destruct (ascii_dec c d) as [->|]; [congruence | reflexivity].
Qed.

Lemma grep_q_none (pattern text : string) :
  String.index 0 pattern text = None -> grep_q pattern text = false.
Proof. intros H. unfold grep_q. rewrite H. reflexivity. Qed.

Ltac walk_text :=
  repeat (apply index_cons_none; [vm_compute; reflexivity|]);
  apply index_digits_none; [reflexivity | discriminate | assumption].

Lemma status_json_decoded (o a : bool) (r : Z) (number : string) :
  all_digits number = true ->
  grep_q pattern_on_true (status_json (mkStatus o a r) number) = o
  /\ grep_q pattern_timeoutActive_true (status_json (mkStatus o a r) number)
     = a
  /\ grep_q "true" (status_json (mkStatus o a r) number) = o || a.
Proof.
  intros Hn.
  unfold pattern_on_true, pattern_timeoutActive_true, status_json.
  cbn [on timerActive].
  destruct o, a; cbn [json_bool append dquote orb];
    (split; [|split]);
    first [ vm_compute; reflexivity
          | apply grep_q_none; walk_text ].
Qed.

(** X14.  The shell script reads the status text right: in every state
    and at every clock reading, the pattern of its lamp test occurs in
    the JSON text exactly when the lamp is on, and the pattern of its
    timer test exactly when the timer is active.  Both sketches. *)
Theorem status_text_read_by_shell_script (now : Z) (g : Globals) :
  grep_q pattern_on_true (Recommended.buildStatusJson now g)
  = Recommended.isLampOn g
  /\ grep_q pattern_timeoutActive_true (Recommended.buildStatusJson now g)
     = timeoutActive g
  /\ grep_q pattern_on_true (Optimized.buildStatusJson now g)
     = Optimized.isLampOn g
  /\ grep_q pattern_timeoutActive_true (Optimized.buildStatusJson now g)
     = timeoutActive g.
Proof.
  rewrite buildStatusJson_agree, isLampOn_agree.
  unfold Recommended.buildStatusJson. cbv zeta.
  destruct (status_json_decoded
              (Recommended.isLampOn g) (timeoutActive g)
              (remainingSeconds (Recommended.statusFields now g))
              (Arduino.String_of_ulong
                 (remainingSeconds (Recommended.statusFields now g)))
              (String_of_ulong_all_digits _)) as (Hon & Hact & _).
  repeat split; assumption.
Qed.

(** X15.  The batch script tests the lamp by looking for the word true
    anywhere in the status text: the word occurs exactly when the lamp
    is on or the timer is active, so the test reads the lamp right in
    every state where an active timer goes with a lit lamp.  Both
    sketches. *)
Theorem status_text_read_by_batch_script (now : Z) (g : Globals)
  (Hc : lamp_timer_coupled g) :
  grep_q "true" (Recommended.buildStatusJson now g)
  = Recommended.isLampOn g || timeoutActive g
  /\ grep_q "true" (Recommended.buildStatusJson now g)
     = Recommended.isLampOn g
  /\ grep_q "true" (Optimized.buildStatusJson now g)
     = Optimized.isLampOn g.
Proof.
  rewrite buildStatusJson_agree, isLampOn_agree.
  unfold Recommended.buildStatusJson. cbv zeta.
  destruct (status_json_decoded
              (Recommended.isLampOn g) (timeoutActive g)
              (remainingSeconds (Recommended.statusFields now g))
              (Arduino.String_of_ulong
                 (remainingSeconds (Recommended.statusFields now g)))
              (String_of_ulong_all_digits _)) as (_ & _ & Htrue).
  assert (Hor : Recommended.isLampOn g || timeoutActive g
                = Recommended.isLampOn g).
  { unfold lamp_timer_coupled in Hc.
    destruct (timeoutActive g); [rewrite Hc by reflexivity|];
      destruct (Recommended.isLampOn g); reflexivity. }
  change (grep_q "true"
            (status_json (Recommended.statusFields now g)
               (Arduino.String_of_ulong
                  (remainingSeconds (Recommended.statusFields now g)))))
    with (grep_q "true"
            (status_json
               (mkStatus (Recommended.isLampOn g) (timeoutActive g)
                  (remainingSeconds (Recommended.statusFields now g)))
               (Arduino.String_of_ulong
                  (remainingSeconds (Recommended.statusFields now g))))).
  rewrite Htrue, Hor. repeat split.
Qed.

Lemma status_text_read_by_batch_script_witness :
  lamp_timer_coupled (mkGlobals 0 true 30 true 1000 0)
  /\ grep_q "true"
       (Recommended.buildStatusJson 5000 (mkGlobals 0 true 30 true 1000 0))
     = Recommended.isLampOn (mkGlobals 0 true 30 true 1000 0).
Proof.
  assert (H : lamp_timer_coupled (mkGlobals 0 true 30 true 1000 0)).
  { intros _. reflexivity. }
  split.
  - exact H.
  - apply (status_text_read_by_batch_script 5000
             (mkGlobals 0 true 30 true 1000 0) H).
Defined.

(** ** Further properties: the control page *)

Lemma to_long_to_ulong (x : Z) : to_long (to_ulong x) = to_long x.
Proof.
  unfold to_long, to_ulong, ULONG_MOD.
  rewrite Z.add_mod_idemp_l by lia. reflexivity.
Qed.

Lemma to_long_sub (a b : Z) : to_long (to_long a - to_long b) = to_long (a - b).
Proof.
  unfold to_long, ULONG_MOD.
  rewrite (Z.mod_eq (a + 2 ^ 31) (2 ^ 32)) by lia.
  rewrite (Z.mod_eq (b + 2 ^ 31) (2 ^ 32)) by lia.
  f_equal.
  replace (a + 2 ^ 31 - 2 ^ 32 * ((a + 2 ^ 31) / 2 ^ 32) - 2 ^ 31
           - (b + 2 ^ 31 - 2 ^ 32 * ((b + 2 ^ 31) / 2 ^ 32) - 2 ^ 31)
           + 2 ^ 31)
    with (a - b + 2 ^ 31
          + ((b + 2 ^ 31) / 2 ^ 32 - (a + 2 ^ 31) / 2 ^ 32) * 2 ^ 32)
    by lia.
  apply Z_mod_plus_full.
Qed.

Lemma to_long_nonneg (u : Z) :
  0 <= u < 2 ^ 32 -> 0 <= to_long u -> to_long u = u.
Proof.
  intros Hu Hl. unfold to_long, ULONG_MOD in *.
  destruct (Z.lt_ge_cases u (2 ^ 31)) as [Hlt|Hge].
  - rewrite Z.mod_small by lia. lia.
  - exfalso.
    replace (u + 2 ^ 31) with (u - 2 ^ 31 + 1 * 2 ^ 32) in Hl by lia.
    rewrite Z_mod_plus_full, Z.mod_small in Hl by lia. lia.
Qed.

(** The page and the status report compute the remaining seconds by two
    routes (an unsigned difference tested through a cast, a difference
    of two casts); they give the same number. *)
Lemma countdown_seconds (now : Z) (g : Globals) :
  fst (Recommended.countdown now g)
  = Optimized.calculateRemainingSeconds now g.
Proof.
  unfold Recommended.countdown, Optimized.calculateRemainingSeconds.
  destruct (timeoutActive g); cbn [negb]; [|reflexivity].
  cbv zeta. cbn [fst]. unfold lsub.
  rewrite to_long_sub.
  rewrite <- (to_long_to_ulong (umul (currentTimeout g) 60000
                                - usub now (timeoutStart g))).
  fold (usub (umul (currentTimeout g) 60000) (usub now (timeoutStart g))).
  set (u := usub (umul (currentTimeout g) 60000) (usub now (timeoutStart g))).
  pose proof (usub_range (umul (currentTimeout g) 60000)
                (usub now (timeoutStart g))) as Hu.
  fold u in Hu.
  destruct (Z.ltb_spec (to_long u) 0) as [Hneg|Hpos].
  - reflexivity.
  - rewrite (to_long_nonneg u Hu Hpos).
    rewrite Z.quot_div_nonneg by lia.
    symmetry. apply to_ulong_small. split.
    + apply Z.div_pos; lia.
    + apply Z.div_lt_upper_bound; lia.
Qed.

Lemma append_assoc (a b c : string) : ((a ++ b) ++ c = a ++ (b ++ c))%string.
Proof.
  induction a as [|x a IH]; cbn; [reflexivity | rewrite IH; reflexivity].
Qed.

Lemma push_digits_grows (fuel : nat) :
  forall (v : Z) (temp : string),
    (String.length temp <= String.length (Arduino.push_digits fuel v temp))%nat.
Proof.
  induction fuel as [|fuel IH]; intros v temp.
  - cbn. lia.
  - rewrite push_digits_step. destruct (v >? 0); [|lia].
    specialize (IH (v / 10)
                  (String (ascii_of_nat (Z.to_nat (48 + v mod 10))) temp)).
    cbn [String.length] in IH. lia.
Qed.

Lemma String_of_ulong_two_digits (v : Z) :
  10 <= v -> (2 <= String.length (Arduino.String_of_ulong v))%nat.
Proof.
  intros Hv. unfold Arduino.String_of_ulong.
  destruct (Z.eqb_spec v 0) as [Hz|_]; [lia|].
  rewrite (push_digits_step 15).
  destruct (Z.gtb_spec v 0) as [_|H0]; [|lia].
  rewrite (push_digits_step 14).
  destruct (Z.gtb_spec (v / 10) 0) as [_|H1].
  - match goal with
    | |- context [Arduino.push_digits ?f ?x ?t] =>
        pose proof (push_digits_grows f x t) as Hg
    end.
    cbn [String.length] in Hg. lia.
  - exfalso. assert (1 <= v / 10) by (apply Z.div_le_lower_bound; lia). lia.
Qed.

(** [%02lu] puts one zero in front of a value below ten and nothing in
    front of any other. *)
Lemma sprintf_02lu_pad (v : Z) :
  0 <= v ->
  Arduino.sprintf_02lu v
  = ((if (v <? 10)%Z then "0" else EmptyString)
     ++ Arduino.String_of_ulong v)%string.
Proof.
  intros Hv. unfold Arduino.sprintf_02lu. cbv zeta.
  destruct (Z.ltb_spec v 10) as [Hlt|Hge].
  - assert (Hc : v = 0 \/ v = 1 \/ v = 2 \/ v = 3 \/ v = 4 \/ v = 5 \/ v = 6
                 \/ v = 7 \/ v = 8 \/ v = 9) by lia.
    repeat (destruct Hc as [-> | Hc]; [reflexivity|]).
    subst v. reflexivity.
  - pose proof (String_of_ulong_two_digits v Hge) as Hl.
    destruct (Nat.ltb_spec (String.length (Arduino.String_of_ulong v)) 2);
      [lia | reflexivity].
Qed.

Lemma countdown_agree (now : Z) (g : Globals) :
  Optimized.countdown now g = Recommended.countdown now g.
Proof.
  unfold Optimized.countdown. cbv zeta.
  rewrite <- countdown_seconds.
  unfold Recommended.countdown.
  destruct (timeoutActive g); cbn [andb fst]; [|reflexivity].
  cbv zeta. cbn [fst].
  set (u := usub (umul (currentTimeout g) 60000) (usub now (timeoutStart g))).
  set (ms := if to_long u <? 0 then 0 else u).
  assert (Hms : 0 <= ms).
  { pose proof (usub_range (umul (currentTimeout g) 60000)
                  (usub now (timeoutStart g))) as Hu.
    fold u in Hu. unfold ms. destruct (to_long u <? 0); lia. }
  assert (Hsec : 0 <= ms / 1000) by (apply Z.div_pos; lia).
  destruct (Z.gtb_spec (ms / 1000) 0) as [Hpos|Hzero].
  - f_equal.
    rewrite !sprintf_02lu_pad
      by first [ apply Z.div_pos; [apply Z.mod_pos_bound|]; lia
               | apply Z.div_pos; lia
               | apply Z.mod_pos_bound; lia ].
    generalize (Arduino.String_of_ulong (ms / 1000 / 3600)).
    generalize (Arduino.String_of_ulong ((ms / 1000) mod 3600 / 60)).
    generalize (Arduino.String_of_ulong ((ms / 1000) mod 60)).
    intros S M H.
    destruct (ms / 1000 / 3600 <? 10), ((ms / 1000) mod 3600 / 60 <? 10),
      ((ms / 1000) mod 60 <? 10);
      cbn [append]; rewrite ?append_assoc; cbn [append];
      rewrite ?append_assoc; reflexivity.
  - assert (Hz : ms / 1000 = 0) by lia. rewrite Hz. reflexivity.
Qed.

(** X16.  Both sketches serve the same control page: in every state and
    at every clock reading the optimized [handleRoot] sends, character
    for character, the text the recommended [handleRoot] sends, with the
    same countdown seconds and countdown text, and neither changes the
    state. *)
Theorem control_page_agree (now : Z) (g : Globals) :
  Optimized.handleRoot now g = Recommended.handleRoot now g
  /\ Optimized.countdown now g = Recommended.countdown now g
  /\ fst (Recommended.handleRoot now g) = g.
Proof.
  split; [|split; [apply countdown_agree | reflexivity]].
  unfold Optimized.handleRoot, Recommended.handleRoot. cbv zeta.
  rewrite countdown_agree, isLampOn_agree.
  unfold Optimized.buildHtmlResponse. rewrite fastItoa_agree.
  generalize (Arduino.String_of_ulong (fst (Recommended.countdown now g))).
  generalize (snd (Recommended.countdown now g)).
  intros display number. f_equal.
  destruct (Recommended.isLampOn g), (timeoutActive g);
    vm_compute; reflexivity.
Qed.

Lemma text_size_append (s t : string) :
  text_size (s ++ t) = text_size s + text_size t.
Proof. unfold text_size. rewrite length_append. lia. Qed.

Lemma text_size_concat (l : list string) :
  text_size (String.concat EmptyString l)
  = fold_right (fun s n => text_size s + n) 0 l.
Proof.
  induction l as [|s l IH]; [reflexivity|].
  cbn [fold_right]. rewrite <- IH.
  destruct l as [|t l].
  - cbn [String.concat]. change (text_size EmptyString) with 0. lia.
  - change (String.concat EmptyString (s :: t :: l))
      with (s ++ (EmptyString ++ String.concat EmptyString (t :: l)))%string.
    rewrite text_size_append. reflexivity.
Qed.

Lemma sprintf_02lu_size (k : nat) (v : Z) :
  (2 <= k)%nat -> 0 <= v < 10 ^ Z.of_nat k ->
  text_size (Arduino.sprintf_02lu v) <= Z.of_nat k.
Proof.
  intros Hk Hv. rewrite sprintf_02lu_pad by lia. rewrite text_size_append.
  unfold text_size.
  destruct (Z.ltb_spec v 10) as [Hlt|Hge].
  - pose proof (String_of_ulong_length 1 v ltac:(lia) ltac:(cbn; lia)) as Hl.
    cbn [String.length]. lia.
  - pose proof (String_of_ulong_length k v ltac:(lia) Hv) as Hl.
    cbn [String.length]. lia.
Qed.

Lemma calculateRemainingSeconds_bound (now : Z) (g : Globals) :
  0 <= Optimized.calculateRemainingSeconds now g <= 2147483.
Proof.
  unfold Optimized.calculateRemainingSeconds.
  destruct (timeoutActive g); cbn [negb]; [|lia].
  apply remaining_value_bound.
Qed.

Lemma countdown_text_size (now : Z) (g : Globals) :
  text_size (snd (Optimized.countdown now g)) <= 9.
Proof.
  unfold Optimized.countdown. cbv zeta. cbn [snd].
  pose proof (calculateRemainingSeconds_bound now g) as Hb.
  set (sec := Optimized.calculateRemainingSeconds now g) in *.
  destruct (timeoutActive g && (sec >? 0)); [|cbn; lia].
  rewrite !text_size_append.
  assert (Hh : 0 <= sec / 3600 < 10 ^ Z.of_nat 3).
  { change (10 ^ Z.of_nat 3) with 1000. split.
    - apply Z.div_pos; lia.
    - apply Z.div_lt_upper_bound; lia. }
  assert (Hm : 0 <= sec mod 3600 / 60 < 10 ^ Z.of_nat 2).
  { change (10 ^ Z.of_nat 2) with 100.
    pose proof (Z.mod_pos_bound sec 3600 ltac:(lia)). split.
    - apply Z.div_pos; lia.
    - apply Z.div_lt_upper_bound; lia. }
  assert (Hs : 0 <= sec mod 60 < 10 ^ Z.of_nat 2).
  { change (10 ^ Z.of_nat 2) with 100.
    pose proof (Z.mod_pos_bound sec 60 ltac:(lia)). lia. }
  pose proof (sprintf_02lu_size 3 _ ltac:(lia) Hh).
  pose proof (sprintf_02lu_size 2 _ ltac:(lia) Hm).
  pose proof (sprintf_02lu_size 2 _ ltac:(lia) Hs).
  change (text_size ":") with 1. lia.
Qed.

Ltac size_of_literals :=
  repeat match goal with
         | |- context [text_size (String ?c ?r)] =>
             let v := eval vm_compute in (text_size (String c r)) in
             change (text_size (String c r)) with v
         | |- context [text_size EmptyString] =>
             change (text_size EmptyString) with 0
         end.

Lemma buildHtmlResponse_size (lampOn active : bool) (totalSec : Z)
      (display : string) :
  text_size (Optimized.buildHtmlResponse lampOn active totalSec display)
  <= 7478 + text_size (Optimized.fastItoa totalSec) + text_size display.
Proof.
  unfold Optimized.buildHtmlResponse. rewrite text_size_concat.
  generalize (Optimized.fastItoa totalSec). intros number.
  destruct lampOn, active; cbn [fold_right negb]; size_of_literals; lia.
Qed.

(** X17.  The page always fits its buffers: in every state and at every
    clock reading the page text with its closing zero byte takes at most
    7495 of the 8192 bytes of [htmlBuffer], the countdown text at most 10
    of the 16 bytes of [timeDisplayInit], and the countdown number at
    most 8 of the 64 bytes of [tempBuffer]. *)
Theorem control_page_fits_buffers (now : Z) (g : Globals) :
  text_size (snd (Optimized.handleRoot now g)) + 1 <= 7495
  /\ text_size (snd (Optimized.countdown now g)) + 1 <= 10
  /\ text_size (Optimized.fastItoa (fst (Optimized.countdown now g))) + 1 <= 8.
Proof.
  pose proof (countdown_text_size now g) as Ht.
  assert (Hn : text_size (Optimized.fastItoa (fst (Optimized.countdown now g)))
               <= 7).
  { rewrite fastItoa_agree. unfold Optimized.countdown. cbv zeta. cbn [fst].
    pose proof (calculateRemainingSeconds_bound now g) as Hb.
    pose proof (String_of_ulong_length 7
                  (Optimized.calculateRemainingSeconds now g)
                  ltac:(lia)
                  ltac:(change (10 ^ Z.of_nat 7) with 10000000; lia)) as Hl.
    unfold text_size. lia. }
  split; [|lia].
  unfold Optimized.handleRoot. cbv zeta. cbn [snd].
  pose proof (buildHtmlResponse_size (Optimized.isLampOn g) (timeoutActive g)
                (fst (Optimized.countdown now g))
                (snd (Optimized.countdown now g))) as Hp.
  lia.
Qed.

(** X18.  The page and the status report show the same countdown: in
    every state where an active timer goes with a lit lamp, the seconds
    the page starts its countdown from are the remaining seconds of a
    status report taken at the same clock reading.  Both sketches. *)
Theorem page_countdown_matches_status (now : Z) (g : Globals)
  (Hc : lamp_timer_coupled g) :
  fst (Recommended.countdown now g)
  = remainingSeconds (Recommended.statusFields now g)
  /\ fst (Optimized.countdown now g)
     = remainingSeconds (Optimized.statusFields now g).
Proof.
  rewrite countdown_agree, statusFields_agree.
  assert (H : fst (Recommended.countdown now g)
              = remainingSeconds (Recommended.statusFields now g)).
  { rewrite countdown_seconds, <- statusFields_agree.
    unfold Optimized.statusFields. cbn [remainingSeconds].
    rewrite isLampOn_agree. unfold lamp_timer_coupled in Hc.
    destruct (timeoutActive g) eqn:Ha.
    - rewrite Hc by reflexivity. reflexivity.
    - unfold Optimized.calculateRemainingSeconds. rewrite Ha. reflexivity. }
  split; exact H.
Qed.

Lemma page_countdown_matches_status_witness :
  lamp_timer_coupled (mkGlobals 0 true 30 true 1000 0)
  /\ fst (Recommended.countdown 5000 (mkGlobals 0 true 30 true 1000 0))
     = remainingSeconds
         (Recommended.statusFields 5000 (mkGlobals 0 true 30 true 1000 0)).
Proof.
  assert (H : lamp_timer_coupled (mkGlobals 0 true 30 true 1000 0)).
  { intros _. reflexivity. }
  split.
  - exact H.
  - apply (page_countdown_matches_status 5000
             (mkGlobals 0 true 30 true 1000 0) H).
Defined.

(** ** Further properties: what switches the lamp *)

Lemma checks_lamp (tExpiry tSafety : Z) (g : Globals) :
  Recommended.isLampOn (fst (Recommended.checks tExpiry tSafety g))
  = Recommended.isLampOn g
    && negb (timeoutActive g
             && (umul (currentTimeout g) 60000
                 <=? usub tExpiry (timeoutStart g))).
Proof.
  unfold Recommended.checks. cbv zeta. cbn [fst].
  destruct (timeoutActive g) eqn:Ha; destruct (Recommended.isLampOn g) eqn:Hl;
    cbn [andb negb].
  - destruct (umul (currentTimeout g) 60000 <=? usub tExpiry (timeoutStart g)).
    + cbn [timeoutActive set_timeoutActive andb].
      rewrite (isLampOn_pins (Recommended.setLamp false g)) by reflexivity.
      apply isLampOn_setLamp.
    + rewrite Ha, Hl. cbn [andb negb]. exact Hl.
  - rewrite Ha, Hl. cbn [andb negb].
    rewrite (isLampOn_pins g) by reflexivity. exact Hl.
  - rewrite Ha. cbn [andb]. exact Hl.
  - rewrite Ha. cbn [andb]. exact Hl.
Qed.

(** X19.  The lamp after a request is decided by the kind of request:
    on after /on, /api/on and a /timeout that starts a timer, off after
    /off and /api/off, and as it was after every other request (/status,
    a /timeout without argument or with a clamped value of 0).  A pass
    of [loop] with no request pending never switches the lamp on: the
    lamp is on after it exactly when it was on before and no active
    timer had run out.  Both sketches. *)
Theorem lamp_follows_requests
  (r : Request) (now tClient tExpiry tSafety last : Z) (g : Globals) :
  let lamp_after (g' : Globals) : Prop :=
    Recommended.isLampOn g'
    = if switches_on r then true
      else if switches_off r then false
      else Recommended.isLampOn g in
  let pass_after (g' : Globals) : Prop :=
    Recommended.isLampOn g'
    = Recommended.isLampOn g
      && negb (timeoutActive g
               && (umul (currentTimeout g) 60000
                   <=? usub tExpiry (timeoutStart g))) in
  lamp_after (fst (Recommended.dispatch r now g))
  /\ lamp_after (fst (Optimized.dispatch r now g))
  /\ pass_after (after (Recommended.loop None tClient tExpiry tSafety g))
  /\ pass_after
       (Optimized.globals
          (after (Optimized.loop None tClient tExpiry
                    (Optimized.mkState g last)))).
Proof.
  cbv zeta. rewrite dispatch_agree, loop_unfold, optimized_loop_unfold.
  cbn [after Recommended.handleClient fst].
  rewrite (proj1 (checks_agree tExpiry last g)), !checks_lamp.
  assert (H : Recommended.isLampOn (fst (Recommended.dispatch r now g))
              = if switches_on r then true
                else if switches_off r then false
                else Recommended.isLampOn g).
  { destruct r as [| |arg| | |];
      cbn [Recommended.dispatch switches_on switches_off].
    - rewrite (isLampOn_pins (Recommended.setLamp true g)) by reflexivity.
      apply isLampOn_setLamp.
    - rewrite (isLampOn_pins (Recommended.setLamp false g)) by reflexivity.
      apply isLampOn_setLamp.
    - destruct arg as [a|]; [|reflexivity].
      destruct (Z.leb_spec 1 (clamp_minutes (Arduino.toInt a))) as [Hpos|Hz].
      + apply (handleTimeout_start a now g Hpos).
      + rewrite handleTimeout_present.
        destruct (Z.leb_spec 1 (clamp_minutes (Arduino.toInt a))) as [Hle|_];
          [lia | reflexivity].
    - reflexivity.
    - rewrite (isLampOn_pins (Recommended.setLamp true g)) by reflexivity.
      apply isLampOn_setLamp.
    - rewrite (isLampOn_pins (Recommended.setLamp false g)) by reflexivity.
      apply isLampOn_setLamp. }
  repeat split; try exact H; reflexivity.
Qed.

(** ** Further properties: the restart and the timer *)

(** X20.  The safety restart never cuts a timer short and is invisible
    to a status client: a pass of [loop] that restarts the device leaves
    the lamp off and no timer active, so a status report on the state it
    leaves shows lamp off, timer inactive, 0 seconds, which is also what
    a status report shows after [setup] has run again, whatever the pin
    levels at power-up.  Both sketches. *)
Theorem restart_loses_nothing
  (req : option Request)
  (tClient tExpiry tSafety currentMillis last t boot pins0 : Z)
  (g : Globals) :
  let r := Recommended.loop req tClient tExpiry tSafety g in
  let o := Optimized.loop req tClient currentMillis
             (Optimized.mkState g last) in
  (restarted r = true ->
   timeoutActive (after r) = false
   /\ Recommended.statusFields t (after r) = mkStatus false false 0)
  /\ (restarted o = true ->
      timeoutActive (Optimized.globals (after o)) = false
      /\ Optimized.statusFields t (Optimized.globals (after o))
         = mkStatus false false 0)
  /\ Recommended.statusFields t (Recommended.setup boot pins0)
     = mkStatus false false 0
  /\ Optimized.statusFields t (Optimized.globals (Optimized.setup boot pins0))
     = mkStatus false false 0.
Proof.
  cbv zeta.
  assert (Hidle : forall g' : Globals,
             lamp_timer_coupled g' -> Recommended.isLampOn g' = false ->
             timeoutActive g' = false
             /\ Recommended.statusFields t g' = mkStatus false false 0).
  { intros g' Hc Hoff. unfold lamp_timer_coupled in Hc.
    assert (Ha : timeoutActive g' = false).
    { destruct (timeoutActive g'); [|reflexivity].
      rewrite Hc in Hoff by reflexivity. discriminate Hoff. }
    split; [exact Ha|].
    unfold Recommended.statusFields. rewrite Ha, Hoff. reflexivity. }
  assert (Hboot : Recommended.statusFields t (Recommended.setup boot pins0)
                  = mkStatus false false 0).
  { apply Hidle.
    - intros H; discriminate H.
    - unfold Recommended.setup, Recommended.isLampOn, GPIO.digitalRead,
        GPIO.digitalWrite, Recommended.relayPin. cbn [pins].
      rewrite testbit_write_GPOS by lia. reflexivity. }
  rewrite !statusFields_agree.
  rewrite loop_unfold, optimized_loop_unfold. cbn [after restarted].
  set (g1 := fst (Recommended.handleClient req tClient g)).
  destruct (checks_agree currentMillis last g1) as [Hg Hr].
  rewrite Hg, Hr, !checks_restart.
  split; [|split; [|split; exact Hboot]].
  - intros Hres. apply andb_true_iff in Hres. destruct Hres as [Hoff _].
    apply negb_true_iff in Hoff.
    apply Hidle; [apply checks_coupled | exact Hoff].
  - intros Hres. apply andb_true_iff in Hres. destruct Hres as [_ Hres].
    apply andb_true_iff in Hres. destruct Hres as [Hoff _].
    apply negb_true_iff in Hoff.
    apply Hidle; [apply checks_coupled | exact Hoff].
Qed.

Lemma restart_loses_nothing_witness :
  restarted (Recommended.loop None 0 43200000 43200000
               (mkGlobals 32 false 0 false 0 0)) = true
  /\ timeoutActive
       (after (Recommended.loop None 0 43200000 43200000
                 (mkGlobals 32 false 0 false 0 0))) = false.
Proof.
  split.
  - reflexivity.
  - exact (proj1 (proj1 (restart_loses_nothing None 0 43200000 43200000
                           0 0 0 0 0 (mkGlobals 32 false 0 false 0 0))
                    eq_refl)).
Defined.

Lemma remaining_seconds_bounded_witness :
  0 <= currentTimeout (mkGlobals 0 true 30 true 1000 0) <= 720
  /\ usub 5000 (timeoutStart (mkGlobals 0 true 30 true 1000 0)) < 2 ^ 31
  /\ remainingSeconds
       (Recommended.statusFields 5000 (mkGlobals 0 true 30 true 1000 0))
     <= currentTimeout (mkGlobals 0 true 30 true 1000 0) * 60 <= 43200.
Proof.
  split; [cbn; lia|]. split; [reflexivity|].
  apply (remaining_seconds_bounded 5000 (mkGlobals 0 true 30 true 1000 0)).
  - cbn. lia.
  - reflexivity.
Defined.
